(** * Qwen Image Editing API: a shallow embedding of [backend/main.py]

    The module is a FastAPI application with one startup hook
    ([load_model]), one POST handler ([edit_image]) and one pure helper
    ([get_prompt_for_edit_type]).  Everything else (Starlette uploads,
    Pillow, torch, the diffusers pipeline) is third-party code, which the
    embedding keeps abstract: a [Libraries] instance supplies the opaque
    types and the operations the module calls, each of which may fail
    with a Python exception and may change an opaque external [World].

    Python-level effects are threaded through a small monad [M]:
    module globals ([model], [device]) and the external world are state,
    exceptions are a sum, and the observable calls ([print], the
    pipeline load, the pipeline invocation) are collected in a trace. *)

From Stdlib Require Import ZArith List String Floats.PrimFloat.
From stdpp Require Import gmap strings.

Local Open Scope string_scope.
Local Open Scope Z_scope.

(** ** Python values that cross the library boundary *)

Definition bytes := list Byte.byte.

(** An exception object of class [Exception] raised by library code; the
    module only ever observes it through [str(e)].  Interpreter signals
    that derive from [BaseException] alone (interrupts, task
    cancellation) are not exceptions in this sense and are left out. *)
Record Exception := { str : string }.

(** [fastapi.HTTPException(status_code=..., detail=...)]. *)
Record HTTPException := { status_code : Z; detail : string }.

Inductive dtype := bfloat16 | float32.

(** [torch.Generator(device=d)], possibly followed by [.manual_seed(s)].
    [gen_seed = None] is a generator still carrying the library's
    default seed. *)
Record Generator := { gen_device : string; gen_seed : option Z }.

Definition torch_Generator (d : string) : Generator :=
  {| gen_device := d; gen_seed := None |}.

Definition manual_seed (g : Generator) (seed : Z) : Generator :=
  {| gen_device := gen_device g; gen_seed := Some seed |}.

(** The values stored in the keyword dictionary handed to the pipeline. *)
Inductive Value (Img : Type) :=
| VImage (im : Img)
| VStr (s : string)
| VInt (n : Z)
| VFloat (x : float)
| VGenerator (g : Generator).

Arguments VImage {Img} im.
Arguments VStr {Img} s.
Arguments VInt {Img} n.
Arguments VFloat {Img} x.
Arguments VGenerator {Img} g.

(** ** The third-party interface

    [World] stands for everything outside the module's own globals: the
    heap behind the pipeline object, the accelerator, upload streams.
    [Pipeline] is a reference to a loaded [QwenImageEditPipeline]. *)
Class Libraries := {
  World : Type;
  UploadFile : Type;
  PILImage : Type;
  Pipeline : Type;
  (* starlette.datastructures.UploadFile.read *)
  read : UploadFile -> World -> (Exception + bytes) * World;
  (* PIL.Image.open(io.BytesIO(b)) *)
  Image_open : bytes -> World -> (Exception + PILImage) * World;
  (* PIL.Image.Image.convert(mode) *)
  convert : PILImage -> string -> World -> (Exception + PILImage) * World;
  (* PIL.Image.Image.mode *)
  mode : PILImage -> string;
  (* PIL.Image.Image.save(buffer, format=...); buffer.getvalue() *)
  save : PILImage -> string -> World -> (Exception + bytes) * World;
  (* torch.cuda.is_available() *)
  cuda_is_available : World -> bool;
  (* QwenImageEditPipeline.from_pretrained(name, torch_dtype=...) *)
  from_pretrained : string -> dtype -> World -> (Exception + Pipeline) * World;
  (* pipeline.to(device) *)
  to : Pipeline -> string -> World -> (Exception + Pipeline) * World;
  (* pipeline.enable_model_cpu_offload() *)
  enable_model_cpu_offload : Pipeline -> World -> (Exception + unit) * World;
  (* calling the pipeline with the keyword dictionary [inputs], then
     reading [.images] of what it returns *)
  pipeline_call :
    Pipeline -> gmap string (Value PILImage) -> World ->
    (Exception + list PILImage) * World
}.

(** ** get_prompt_for_edit_type (pure) *)

Definition prompts : gmap string string :=
  <["colorize" := "Adjust colors, improve contrast, and enhance visual quality while maintaining original style."]>
  (<["enhance" := "Enhance the image quality, improve sharpness, color balance, and overall visual appeal."]>
  (<["replace_bg_custom" := "Replace the background with the reference image, ensuring seamless integration."]>
  (<["replace_bg_auto" := "Replace the background with an aesthetically pleasing, contextually appropriate background."]>
  (<["remove_bg" := "Remove the background from this image, keeping only the main subject with a transparent background."]>
  ∅)))).

(** [d.get(k, dflt)] *)
Definition dict_get {V} (d : gmap string V) (k : string) (dflt : V) : V :=
  match d !! k with
  | Some v => v
  | None => dflt
  end.

Definition get_prompt_for_edit_type (edit_type : string) : string :=
  dict_get prompts edit_type "Enhance this image appropriately.".

(** [a or b] on strings: the empty string is the only falsy one. *)
Definition str_or (a b : string) : string :=
  match a with
  | EmptyString => b
  | String _ _ => a
  end.

(** The keyword dictionary [inputs] (lines 62-77). *)
Abbreviation Inputs := (gmap string (Value PILImage)).

(** ** The effect monad *)

Section Embedding.
Context {L : Libraries}.

(** The module's globals (lines 24-25). *)
Record Globals := { model : option Pipeline; device : string }.

Record State := { globals : Globals; world : World }.

(** What an observer of the process can see the module do: a line
    printed, [from_pretrained] called, the pipeline called. *)
Inductive Event :=
| Printed (line : string)
| Pretrained (name : string) (torch_dtype : dtype)
| Called (pipe : Pipeline) (inputs : Inputs).

(** A computation that may raise an [E], returns an [A] otherwise, and in
    both cases leaves a new state and the events it emitted. *)
Definition M (E A : Type) : Type := State -> (E + A) * State * list Event.

Definition ret {E A} (a : A) : M E A := fun s => (inr a, s, []).

Definition raise {E A} (e : E) : M E A := fun s => (inl e, s, []).

Definition bind {E A B} (m : M E A) (k : A -> M E B) : M E B :=
  fun s =>
    match m s with
    | (inl e, s1, t1) => (inl e, s1, t1)
    | (inr a, s1, t1) =>
        match k a s1 with
        | (r, s2, t2) => (r, s2, (t1 ++ t2)%list)
        end
    end.

(** [try: body except Exception as e: handler(e)] *)
Definition try_except {E E' A} (body : M E A) (handler : E -> M E' A) : M E' A :=
  fun s =>
    match body s with
    | (inr a, s1, t1) => (inr a, s1, t1)
    | (inl e, s1, t1) =>
        match handler e s1 with
        | (r, s2, t2) => (r, s2, (t1 ++ t2)%list)
        end
    end.

Notation "x <- m ;; k" := (bind m (fun x => k))
  (at level 100, m at next level, k at level 200, right associativity).
Notation "m ;;; k" := (bind m (fun _ => k))
  (at level 100, k at level 200, right associativity).

Definition get_globals {E} : M E Globals := fun s => (inr (globals s), s, []).

(** [global model; model = v] *)
Definition set_model {E} (v : option Pipeline) : M E unit :=
  fun s =>
    (inr tt,
     {| globals := {| model := v; device := device (globals s) |};
        world := world s |},
     []).

Definition emit {E} (ev : Event) : M E unit := fun s => (inr tt, s, [ev]).

Definition print {E} (line : string) : M E unit := emit (Printed line).

(** A library call: it runs on the world and leaves the globals alone. *)
Definition lib {A} (op : World -> (Exception + A) * World) : M Exception A :=
  fun s =>
    match op (world s) with
    | (r, w) => (r, {| globals := globals s; world := w |}, [])
    end.

(** [xs[0]] on a Python list. *)
Definition first_item {A} (xs : list A) : M Exception A :=
  match xs with
  | x :: _ => ret x
  | [] => raise {| str := "list index out of range" |}
  end.

(** ** Module initialisation (lines 24-26) *)

Definition select_device (w : World) : string :=
  if cuda_is_available w then "cuda" else "cpu".

Definition module_init (w : World) : State * list Event :=
  let d := select_device w in
  ({| globals := {| model := None; device := d |}; world := w |},
   [Printed ("Using device: " ++ d)]).

(** ** load_model, the startup hook (lines 28-41) *)

(** The body of the [try] (lines 32-38). *)
Definition load_model_try : M Exception unit :=
  g <- get_globals ;;
  let torch_dtype := if String.eqb (device g) "cuda" then bfloat16 else float32 in
  emit (Pretrained "Qwen/Qwen-Image-Edit" torch_dtype) ;;;
  m <- lib (from_pretrained "Qwen/Qwen-Image-Edit" torch_dtype) ;;
  set_model (Some m) ;;;
  g <- get_globals ;;
  m <- lib (to m (device g)) ;;
  set_model (Some m) ;;;
  lib (enable_model_cpu_offload m) ;;;
  print "Qwen Image Edit model loaded successfully!".

Definition load_model {E} : M E unit :=
  try_except load_model_try
    (fun e =>
     print ("Error loading model: " ++ str e) ;;;
     set_model None).

(** ** edit_image, the POST handler (lines 43-97) *)

Record StreamingResponse := {
  content : bytes;
  media_type : string;
  headers : gmap string string
}.

(** The handler's parameters once the framework has bound them. *)
Record Args := {
  image : UploadFile;
  reference_image : option UploadFile;
  edit_type : string;
  prompt : string;
  negative_prompt : string;
  num_inference_steps : Z;
  true_cfg_scale : float
}.

(** Calling the global [model]: a call on [None] is a [TypeError]. *)
Definition call_model (inputs : Inputs) : M Exception (list PILImage) :=
  g <- get_globals ;;
  match model g with
  | None => raise {| str := "'NoneType' object is not callable" |}
  | Some m =>
      emit (Called m inputs) ;;;
      lib (pipeline_call m inputs)
  end.

(** The body of the [try] (lines 57-93).  [torch.inference_mode()] only
    switches gradient tracking off and is not modelled. *)
Definition edit_image_try (a : Args) : M Exception StreamingResponse :=
  image_bytes <- lib (read (image a)) ;;
  opened <- lib (Image_open image_bytes) ;;
  pil_image <- lib (convert opened "RGB") ;;
  g <- get_globals ;;
  let inputs : Inputs :=
    <["generator" := VGenerator (manual_seed (torch_Generator (device g)) 42)]>
    (<["true_cfg_scale" := VFloat (true_cfg_scale a)]>
    (<["num_inference_steps" := VInt (num_inference_steps a)]>
    (<["negative_prompt" := VStr (negative_prompt a)]>
    (<["prompt" := VStr (str_or (prompt a) (get_prompt_for_edit_type (edit_type a)))]>
    (<["image" := VImage pil_image]> ∅))))) in
  inputs <-
    match reference_image a with
    | Some ref =>
        ref_bytes <- lib (read ref) ;;
        ref_opened <- lib (Image_open ref_bytes) ;;
        ref_image <- lib (convert ref_opened "RGB") ;;
        ret (<["reference_image" := VImage ref_image]> inputs)
    | None => ret inputs
    end ;;
  images <- call_model inputs ;;
  edited_image <- first_item images ;;
  img_bytes <- lib (save edited_image "PNG") ;;
  ret {| content := img_bytes;
         media_type := "image/png";
         headers := {[ "Content-Disposition" :=
                       "attachment; filename=edited_image.png" ]} |}.

Definition edit_image (a : Args) : M HTTPException StreamingResponse :=
  g <- get_globals ;;
  match model g with
  | None =>
      raise {| status_code := 500;
               detail := "Model not loaded. Please check server logs." |}
  | Some _ =>
      try_except (edit_image_try a)
        (fun e =>
         print ("Error during image editing: " ++ str e) ;;;
         raise {| status_code := 500; detail := str e |})
  end.

(** ** Parameter binding

    The handler's signature (lines 45-51) declares each parameter as
    [File(...)] / [Form(...)] (required) or with a default value.  The
    framework fills the parameters from the multipart form and only then
    calls the handler; a request lacking a required field never reaches
    it.  For a form parameter the framework takes a text value sent
    empty as a value not sent. *)

Inductive Param (A : Type) :=
| Required
| Default (d : A).

Arguments Required {A}.
Arguments Default {A} d.

Definition bind_param {A} (p : Param A) (sent : option A) : option A :=
  match sent, p with
  | Some v, _ => Some v
  | None, Default d => Some d
  | None, Required => None
  end.

(** The multipart fields a client sent; [None] is an omitted field. *)
Record Form := {
  form_image : option UploadFile;
  form_reference_image : option UploadFile;
  form_edit_type : option string;
  form_prompt : option string;
  form_negative_prompt : option string;
  form_num_inference_steps : option Z;
  form_true_cfg_scale : option float
}.

(** The value the binder sees for a text field. *)
Definition form_text (sent : option string) : option string :=
  match sent with
  | Some EmptyString => None
  | _ => sent
  end.

Definition bind_form (f : Form) : option Args :=
  image ← bind_param Required (form_image f);
  reference_image ← bind_param (Default None) (Some <$> form_reference_image f);
  edit_type ← bind_param Required (form_text (form_edit_type f));
  prompt ← bind_param (Default EmptyString) (form_text (form_prompt f));
  negative_prompt ← bind_param (Default EmptyString) (form_text (form_negative_prompt f));
  num_inference_steps ← bind_param (Default 50) (form_num_inference_steps f);
  true_cfg_scale ← bind_param (Default 4.0%float) (form_true_cfg_scale f);
  Some {| image := image;
          reference_image := reference_image;
          edit_type := edit_type;
          prompt := prompt;
          negative_prompt := negative_prompt;
          num_inference_steps := num_inference_steps;
          true_cfg_scale := true_cfg_scale |}.

(** What the client gets back: the streamed response, the error the
    handler raised, or the framework's own rejection of a form that
    could not be bound. *)
Inductive Reply :=
| Streamed (r : StreamingResponse)
| Failed (e : HTTPException)
| Unbound.

Definition reply_of (r : HTTPException + StreamingResponse) : Reply :=
  match r with
  | inr response => Streamed response
  | inl e => Failed e
  end.

Definition post_edit_image (f : Form) (s : State) : Reply * State * list Event :=
  match bind_form f with
  | None => (Unbound, s, [])
  | Some a =>
      match edit_image a s with
      | (r, s1, t) => (reply_of r, s1, t)
      end
  end.

(** ** The application object (lines 12, 28, 43)

    [FastAPI(title=...)] leaves the documentation URLs at their
    defaults, so the constructor registers the schema and the three
    documentation pages, each answering GET and HEAD; the decorator of
    line 43 then adds the one route of the module. *)

Inductive Method := GET | HEAD | POST | PUT | DELETE.

Inductive Endpoint :=
| Handler (run : Form -> State -> Reply * State * list Event)
| Page (name : string).

Record Route := {
  route_methods : list Method;
  route_path : string;
  route_endpoint : Endpoint
}.

Record FastAPI := {
  title : string;
  routes : list Route;
  on_startup : list (M Empty_set unit)
}.

Definition app : FastAPI :=
  {| title := "Qwen Image Editing API";
     routes := [ {| route_methods := [GET; HEAD];
                    route_path := "/openapi.json";
                    route_endpoint := Page "openapi" |};
                 {| route_methods := [GET; HEAD];
                    route_path := "/docs";
                    route_endpoint := Page "swagger_ui_html" |};
                 {| route_methods := [GET; HEAD];
                    route_path := "/docs/oauth2-redirect";
                    route_endpoint := Page "swagger_ui_redirect" |};
                 {| route_methods := [GET; HEAD];
                    route_path := "/redoc";
                    route_endpoint := Page "redoc_html" |};
                 {| route_methods := [POST];
                    route_path := "/edit-image";
                    route_endpoint := Handler post_edit_image |} ];
     on_startup := [ load_model ] |}.

Definition accepts (m : Method) (r : Route) : bool :=
  existsb (fun m' => match m, m' with
                     | GET, GET | HEAD, HEAD | POST, POST
                     | PUT, PUT | DELETE, DELETE => true
                     | _, _ => false
                     end)
          (route_methods r).

Definition is_post (r : Route) : bool := accepts POST r.

(** ** A process: import the module, run the startup hooks, serve calls

    [serve] runs the handler on a sequence of bound requests, one after
    the other, each from the state the previous one left. *)

Fixpoint run_hooks (hooks : list (M Empty_set unit)) (s : State) : State * list Event :=
  match hooks with
  | [] => (s, [])
  | h :: rest =>
      match h s with
      | (_, s1, t1) =>
          match run_hooks rest s1 with
          | (s2, t2) => (s2, (t1 ++ t2)%list)
          end
      end
  end.

Definition startup (w : World) : State * list Event :=
  match module_init w with
  | (s0, t0) =>
      match run_hooks (on_startup app) s0 with
      | (s1, t1) => (s1, (t0 ++ t1)%list)
      end
  end.

Fixpoint serve (calls : list Args) (s : State)
  : list (HTTPException + StreamingResponse) * State * list Event :=
  match calls with
  | [] => ([], s, [])
  | a :: rest =>
      match edit_image a s with
      | (r, s1, t1) =>
          match serve rest s1 with
          | (rs, s2, t2) => (r :: rs, s2, (t1 ++ t2)%list)
          end
      end
  end.

(** ** Reading a trace *)

Definition is_load (ev : Event) : bool :=
  match ev with
  | Pretrained _ _ => true
  | _ => false
  end.

Definition loads (t : list Event) : nat := length (List.filter is_load t).

(** The keyword dictionaries of the pipeline invocations in a trace. *)
Fixpoint calls_of (t : list Event) : list Inputs :=
  match t with
  | [] => []
  | Called _ inputs :: rest => inputs :: calls_of rest
  | _ :: rest => calls_of rest
  end.

(** ** Reading a run *)

Definition outcome {R} (run : R * State * list Event) : R := fst (fst run).
Definition final {R} (run : R * State * list Event) : State := snd (fst run).
Definition trace {R} (run : R * State * list Event) : list Event := snd run.

(** [wp m s Q]: running [m] from [s] ends in a result, state and trace
    that satisfy [Q]. *)
Definition wp {E A} (m : M E A) (s : State)
    (Q : E + A -> State -> list Event -> Prop) : Prop :=
  Q (outcome (m s)) (final (m s)) (trace (m s)).

(** ** Describing the keyword dictionary the pipeline receives *)

(** [decoded u w im w']: reading upload [u] in world [w], opening the
    bytes as an image and converting it to RGB all succeed, give [im] and
    leave the world [w']. *)
Definition decoded (u : UploadFile) (w : World) (im : PILImage) (w' : World) : Prop :=
  exists image_bytes opened w1 w2,
    read u w = (inr image_bytes, w1) /\
    Image_open image_bytes w1 = (inr opened, w2) /\
    convert opened "RGB" w2 = (inr im, w').

(** The dictionary literal of lines 62-69. *)
Definition literal (a : Args) (d : string) (pil_image : PILImage) : Inputs :=
  <["generator" := VGenerator (manual_seed (torch_Generator d) 42)]>
  (<["true_cfg_scale" := VFloat (true_cfg_scale a)]>
  (<["num_inference_steps" := VInt (num_inference_steps a)]>
  (<["negative_prompt" := VStr (negative_prompt a)]>
  (<["prompt" := VStr (str_or (prompt a) (get_prompt_for_edit_type (edit_type a)))]>
  (<["image" := VImage pil_image]> ∅))))).

(** [passed a s inputs]: in a call with arguments [a] from state [s] both
    decodings succeed and [inputs] is the literal, extended with the
    reference image when one was sent (line 77). *)
Definition passed (a : Args) (s : State) (inputs : Inputs) : Prop :=
  exists pil_image w1,
    decoded (image a) (world s) pil_image w1 /\
    match reference_image a with
    | None => inputs = literal a (device (globals s)) pil_image
    | Some ref =>
        exists ref_image w2,
          decoded ref w1 ref_image w2 /\
          inputs = <["reference_image" := VImage ref_image]>
                     (literal a (device (globals s)) pil_image)
    end.

(** ** Describing the other paths through the handler *)

(** [prepared a s inputs w]: as [passed], and [w] is the world the last
    decoding step left, the one the pipeline is then called in. *)
Definition prepared (a : Args) (s : State) (inputs : Inputs) (w : World) : Prop :=
  exists pil_image w1,
    decoded (image a) (world s) pil_image w1 /\
    match reference_image a with
    | None => inputs = literal a (device (globals s)) pil_image /\ w = w1
    | Some ref =>
        exists ref_image,
          decoded ref w1 ref_image w /\
          inputs = <["reference_image" := VImage ref_image]>
                     (literal a (device (globals s)) pil_image)
    end.

(** [undecodable u w exc w']: reading, opening or converting upload [u]
    from world [w] raises [exc], the steps before it having succeeded,
    and leaves the world [w']. *)
Definition undecodable (u : UploadFile) (w : World) (exc : Exception) (w' : World) : Prop :=
  read u w = (inl exc, w') \/
  (exists image_bytes w1,
     read u w = (inr image_bytes, w1) /\
     Image_open image_bytes w1 = (inl exc, w')) \/
  (exists image_bytes opened w1 w2,
     read u w = (inr image_bytes, w1) /\
     Image_open image_bytes w1 = (inr opened, w2) /\
     convert opened "RGB" w2 = (inl exc, w')).

(** The pipeline objects invoked in a trace. *)
Fixpoint pipes_of (t : list Event) : list Pipeline :=
  match t with
  | [] => []
  | Called pipe _ :: rest => pipe :: pipes_of rest
  | _ :: rest => pipes_of rest
  end.

(** The lines printed in a trace. *)
Fixpoint printed_of (t : list Event) : list string :=
  match t with
  | [] => []
  | Printed line :: rest => line :: printed_of rest
  | _ :: rest => printed_of rest
  end.

(** The keyword names of the dictionary literal (lines 62-69). *)
Definition literal_keys : gset string :=
  {[ "image"; "prompt"; "negative_prompt"; "num_inference_steps";
     "true_cfg_scale"; "generator" ]}.

End Embedding.

(** ** A small concrete instance of the libraries

    Uploads are their bytes, an image is a colour mode with its data,
    opening rejects an empty buffer, the pipeline hands back the image
    it was given.  The world records whether the pretrained weights can
    be fetched. *)

Module Demo.

Record Picture := { pic_mode : string; pic_data : bytes }.

Definition libs : Libraries :=
  {| World := bool;
     UploadFile := bytes;
     PILImage := Picture;
     Pipeline := unit;
     read := fun u w => (inr u, w);
     Image_open := fun b w =>
       match b with
       | [] => (inl {| str := "cannot identify image file" |}, w)
       | _ :: _ => (inr {| pic_mode := "RGBA"; pic_data := b |}, w)
       end;
     convert := fun im m w => (inr {| pic_mode := m; pic_data := pic_data im |}, w);
     mode := pic_mode;
     save := fun im fmt w => (inr (pic_data im), w);
     cuda_is_available := fun w => false;
     from_pretrained := fun name dt w =>
       if w then (inr tt, w) else (inl {| str := "weights not found" |}, w);
     to := fun p d w => (inr p, w);
     enable_model_cpu_offload := fun p w => (inr tt, w);
     pipeline_call := fun p inputs w =>
       match inputs !! "image" with
       | Some (VImage im) => (inr [im], w)
       | _ => (inl {| str := "image is required" |}, w)
       end |}.

Definition png : bytes := [Byte.x89; Byte.x50; Byte.x4e; Byte.x47].

Definition loaded : @State libs :=
  {| globals := @Build_Globals libs (Some tt) "cpu"; world := true |}.

Definition unloaded : @State libs :=
  {| globals := @Build_Globals libs None "cpu"; world := false |}.

Definition plain : @Args libs :=
  {| image := png : @UploadFile libs;
     reference_image := None;
     edit_type := "enhance";
     prompt := EmptyString;
     negative_prompt := EmptyString;
     num_inference_steps := 50;
     true_cfg_scale := 4.0%float |}.

Definition blank : @Args libs :=
  {| image := [] : @UploadFile libs;
     reference_image := None;
     edit_type := "enhance";
     prompt := EmptyString;
     negative_prompt := EmptyString;
     num_inference_steps := 50;
     true_cfg_scale := 4.0%float |}.

Definition custom : @Args libs :=
  {| image := png : @UploadFile libs;
     reference_image := Some (png : @UploadFile libs);
     edit_type := "replace_bg_custom";
     prompt := "Put the subject on a beach.";
     negative_prompt := "blurry";
     num_inference_steps := 20;
     true_cfg_scale := 2.5%float |}.

Definition detailed : @Form libs :=
  {| form_image := Some (png : @UploadFile libs);
     form_reference_image := Some (png : @UploadFile libs);
     form_edit_type := Some "replace_bg_custom";
     form_prompt := Some "Put the subject on a beach.";
     form_negative_prompt := Some "blurry";
     form_num_inference_steps := Some 20;
     form_true_cfg_scale := Some 2.5%float |}.

Definition unnamed : @Form libs :=
  {| form_image := Some (png : @UploadFile libs);
     form_reference_image := None;
     form_edit_type := Some EmptyString;
     form_prompt := None;
     form_negative_prompt := None;
     form_num_inference_steps := None;
     form_true_cfg_scale := None |}.

Definition minimal : @Form libs :=
  {| form_image := Some (png : @UploadFile libs);
     form_reference_image := None;
     form_edit_type := Some "colorize";
     form_prompt := None;
     form_negative_prompt := None;
     form_num_inference_steps := None;
     form_true_cfg_scale := None |}.

(** The same libraries around another pipeline and another encoder. *)
Definition with_pipeline
    (call : unit -> gmap string (Value Picture) -> bool ->
            (Exception + list Picture) * bool)
    (save_as : Picture -> string -> bool -> (Exception + bytes) * bool)
  : Libraries :=
  {| World := bool;
     UploadFile := bytes;
     PILImage := Picture;
     Pipeline := unit;
     read := fun u w => (inr u, w);
     Image_open := fun b w =>
       match b with
       | [] => (inl {| str := "cannot identify image file" |}, w)
       | _ :: _ => (inr {| pic_mode := "RGBA"; pic_data := b |}, w)
       end;
     convert := fun im m w => (inr {| pic_mode := m; pic_data := pic_data im |}, w);
     mode := pic_mode;
     save := save_as;
     cuda_is_available := fun w => false;
     from_pretrained := fun name dt w =>
       if w then (inr tt, w) else (inl {| str := "weights not found" |}, w);
     to := fun p d w => (inr p, w);
     enable_model_cpu_offload := fun p w => (inr tt, w);
     pipeline_call := call |}.

(** A pipeline that returns no image, one that runs out of memory, and
    an encoder that cannot write. *)
Definition hollow : Libraries :=
  with_pipeline (fun _ _ w => (inr [], w))
                (fun im fmt w => (inr (pic_data im), w)).

Definition exhausted : Libraries :=
  with_pipeline (fun _ _ w => (inl {| str := "CUDA out of memory" |}, w))
                (fun im fmt w => (inr (pic_data im), w)).

Definition unwritable : Libraries :=
  with_pipeline (fun _ _ w => (inr [ {| pic_mode := "RGB"; pic_data := png |} ], w))
                (fun im fmt w => (inl {| str := "encoder error" |}, w)).

Definition plain_in (L' : Libraries) (u : @UploadFile L') : @Args L' :=
  {| image := u;
     reference_image := None;
     edit_type := "enhance";
     prompt := EmptyString;
     negative_prompt := EmptyString;
     num_inference_steps := 50;
     true_cfg_scale := 4.0%float |}.

Definition loaded_in (L' : Libraries) (p : @Pipeline L') (w : @World L') : @State L' :=
  {| globals := @Build_Globals L' (Some p) "cpu"; world := w |}.

Definition rgb (b : bytes) : Picture := {| pic_mode := "RGB"; pic_data := b |}.

Definition blank_reference : @Args libs :=
  {| image := png : @UploadFile libs;
     reference_image := Some ([] : @UploadFile libs);
     edit_type := "replace_bg_custom";
     prompt := EmptyString;
     negative_prompt := EmptyString;
     num_inference_steps := 50;
     true_cfg_scale := 4.0%float |}.

End Demo.

(** * Reasoning rules for [M] *)

Section Rules.
Context {L : Libraries}.

Lemma wp_ret {E A} (a : A) s (Q : E + A -> State -> list Event -> Prop) :
  Q (inr a) s [] -> wp (ret a) s Q.
Proof. exact (fun H => H). Qed.

Lemma wp_raise {E A} (e : E) s (Q : E + A -> State -> list Event -> Prop) :
  Q (inl e) s [] -> wp (raise e) s Q.
Proof. exact (fun H => H). Qed.

Lemma wp_get_globals {E} s (Q : E + Globals -> State -> list Event -> Prop) :
  Q (inr (globals s)) s [] -> wp get_globals s Q.
Proof. exact (fun H => H). Qed.

Lemma wp_emit {E} ev s (Q : E + unit -> State -> list Event -> Prop) :
  Q (inr tt) s [ev] -> wp (emit ev) s Q.
Proof. exact (fun H => H). Qed.

Lemma wp_set_model {E} v s (Q : E + unit -> State -> list Event -> Prop) :
  Q (inr tt)
    {| globals := {| model := v; device := device (globals s) |};
       world := world s |} [] ->
  wp (set_model v) s Q.
Proof. exact (fun H => H). Qed.

Lemma wp_lib {A} (op : World -> (Exception + A) * World) s
    (Q : Exception + A -> State -> list Event -> Prop) :
  (forall r w, op (world s) = (r, w) ->
               Q r {| globals := globals s; world := w |} []) ->
  wp (lib op) s Q.
Proof.
  intros H. unfold wp, lib, outcome, final, trace.
  destruct (op (world s)) as [r w] eqn:Hop. exact (H r w eq_refl).
Qed.

Lemma wp_bind {E A B} (m : M E A) (k : A -> M E B) s
    (Q : E + B -> State -> list Event -> Prop) :
  wp m s (fun r s1 t1 =>
            match r with
            | inl e => Q (inl e) s1 t1
            | inr a => wp (k a) s1 (fun r2 s2 t2 => Q r2 s2 (t1 ++ t2)%list)
            end) ->
  wp (bind m k) s Q.
Proof.
  unfold wp, bind, outcome, final, trace.
  destruct (m s) as [[[e | a] s1] t1]; simpl; [exact (fun H => H) |].
  destruct (k a s1) as [[r2 s2] t2]; simpl. exact (fun H => H).
Qed.

Lemma wp_try_except {E E' A} (body : M E A) (handler : E -> M E' A) s
    (Q : E' + A -> State -> list Event -> Prop) :
  wp body s (fun r s1 t1 =>
               match r with
               | inr a => Q (inr a) s1 t1
               | inl e => wp (handler e) s1
                            (fun r2 s2 t2 => Q r2 s2 (t1 ++ t2)%list)
               end) ->
  wp (try_except body handler) s Q.
Proof.
  unfold wp, try_except, outcome, final, trace.
  destruct (body s) as [[[e | a] s1] t1]; simpl; [| exact (fun H => H)].
  destruct (handler e s1) as [[r2 s2] t2]; simpl. exact (fun H => H).
Qed.

Lemma wp_first_item {A} (xs : list A) s
    (Q : Exception + A -> State -> list Event -> Prop) :
  match xs with
  | x :: _ => Q (inr x) s []
  | [] => Q (inl {| str := "list index out of range" |}) s []
  end ->
  wp (first_item xs) s Q.
Proof. destruct xs; exact (fun H => H). Qed.

End Rules.

(** One step of symbolic execution of a computation in [M]. *)
Ltac wp_step :=
  lazymatch goal with
  | |- wp (bind _ _) _ _ => apply wp_bind
  | |- wp (try_except _ _) _ _ => apply wp_try_except
  | |- wp (ret _) _ _ => apply wp_ret
  | |- wp (raise _) _ _ => apply wp_raise
  | |- wp get_globals _ _ => apply wp_get_globals
  | |- wp (emit _) _ _ => apply wp_emit
  | |- wp (print _) _ _ => apply wp_emit
  | |- wp (set_model _) _ _ => apply wp_set_model
  | |- wp (first_item ?xs) _ _ => apply wp_first_item; destruct xs
  | |- wp (lib _) _ _ =>
      let r := fresh "r" in
      let w := fresh "w" in
      let Hop := fresh "Hop" in
      apply wp_lib; intros r w Hop; cbn [world globals] in Hop; destruct r
  | |- wp (match ?x with _ => _ end) _ _ => destruct x eqn:?
  end.

(** * Properties *)

(** ** The prompt table *)

(** C1: [get_prompt_for_edit_type] maps each of the five keys
    "remove_bg", "replace_bg_auto", "replace_bg_custom", "enhance" and
    "colorize" to its fixed default prompt, and every other string to the
    fallback "Enhance this image appropriately.". *)
Theorem get_prompt_for_edit_type_table :
  get_prompt_for_edit_type "remove_bg" =
    "Remove the background from this image, keeping only the main subject with a transparent background." /\
  get_prompt_for_edit_type "replace_bg_auto" =
    "Replace the background with an aesthetically pleasing, contextually appropriate background." /\
  get_prompt_for_edit_type "replace_bg_custom" =
    "Replace the background with the reference image, ensuring seamless integration." /\
  get_prompt_for_edit_type "enhance" =
    "Enhance the image quality, improve sharpness, color balance, and overall visual appeal." /\
  get_prompt_for_edit_type "colorize" =
    "Adjust colors, improve contrast, and enhance visual quality while maintaining original style." /\
  (forall edit_type : string,
     edit_type ∉ ["remove_bg"; "replace_bg_auto"; "replace_bg_custom";
                  "enhance"; "colorize"] ->
     get_prompt_for_edit_type edit_type = "Enhance this image appropriately.").
Proof.
  repeat split; try reflexivity.
  intros edit_type Hother.
  rewrite !not_elem_of_cons in Hother.
  destruct Hother as (H1 & H2 & H3 & H4 & H5 & _).
  unfold get_prompt_for_edit_type, dict_get, prompts.
  rewrite !lookup_insert_ne by (intros E; symmetry in E; contradiction).
  rewrite lookup_empty. reflexivity.
Qed.

Section Properties.
Context {L : Libraries}.

(** ** Traces *)

Lemma calls_of_app (t1 t2 : list Event) :
  calls_of (t1 ++ t2) = (calls_of t1 ++ calls_of t2)%list.
Proof.
  induction t1 as [| ev t1 IH]; [reflexivity |].
  destruct ev; simpl; rewrite IH; reflexivity.
Qed.

Lemma Forall_map_const {A B} (c : B) (l : list A) :
  Forall (fun r => r = c) (map (fun _ => c) l).
Proof. induction l; constructor; auto. Qed.

Lemma loads_app (t1 t2 : list Event) : loads (t1 ++ t2) = (loads t1 + loads t2)%nat.
Proof. unfold loads. rewrite List.filter_app, length_app. reflexivity. Qed.

(** ** The handler and the globals *)

Lemma edit_image_globals (a : Args) (s : State) :
  globals (final (edit_image a s)) = globals s.
Proof.
  change (wp (edit_image a) s (fun _ s' _ => globals s' = globals s)).
  unfold edit_image, edit_image_try, call_model.
  repeat (wp_step; cbn [globals]); reflexivity.
Qed.

(** ** The keyword dictionary the pipeline receives *)

Lemma edit_image_calls (a : Args) (s : State) :
  Forall (passed a s) (calls_of (trace (edit_image a s))).
Proof.
  change (wp (edit_image a) s (fun _ _ t => Forall (passed a s) (calls_of t))).
  unfold edit_image, edit_image_try, call_model.
  repeat (wp_step; cbn [globals world]);
    cbn [app calls_of]; try (constructor 1).
  all: constructor 2; [| constructor 1].
  all: unfold passed, decoded, literal.
  all: repeat match goal with H : reference_image _ = _ |- _ => rewrite H end.
  all: eauto 20.
Qed.

Lemma serve_calls (calls : list Args) (s : State) :
  Forall (fun inputs => exists a s1, globals s1 = globals s /\ passed a s1 inputs)
         (calls_of (trace (serve calls s))).
Proof.
  revert s. induction calls as [| a rest IH]; intros s; [constructor 1 |].
  cbn [serve].
  pose proof (edit_image_globals a s) as Hg.
  pose proof (edit_image_calls a s) as Ha.
  destruct (edit_image a s) as [[r s1] t1].
  pose proof (IH s1) as Hrest.
  destruct (serve rest s1) as [[rs s2] t2].
  unfold final, trace in *; cbn [fst snd] in *.
  rewrite calls_of_app. apply Forall_app. split.
  - eapply Forall_impl; [exact Ha |]. intros inputs Hp. exists a, s. auto.
  - eapply Forall_impl; [exact Hrest |].
    intros inputs (a' & s' & Hs' & Hp). exists a', s'. split; congruence.
Qed.

Lemma passed_lookup (a : Args) (s : State) (inputs : Inputs) (k : string) :
  passed a s inputs -> k <> "reference_image" ->
  exists pil_image,
    inputs !! k = literal a (device (globals s)) pil_image !! k.
Proof.
  intros (pil_image & w1 & _ & Href) Hk. exists pil_image.
  destruct (reference_image a).
  - destruct Href as (ref_image & w2 & _ & ->).
    apply lookup_insert_ne. congruence.
  - rewrite Href. reflexivity.
Qed.

(** ** The claims about the pipeline invocation *)

(** C3: the random generator handed to the pipeline is seeded with the
    constant 42 on every call, whatever the form fields and the image:
    across any sequence of handler calls in a process, every pipeline
    invocation receives the same generator value. *)
Theorem generator_seed_fixed (calls : list Args) (s : State) :
  Forall (fun inputs =>
            inputs !! "generator" =
              Some (VGenerator {| gen_device := device (globals s);
                                  gen_seed := Some 42 |}))
         (calls_of (trace (serve calls s))).
Proof.
  eapply Forall_impl; [apply serve_calls |].
  intros inputs (a & s1 & Hs1 & Hp).
  destruct (passed_lookup a s1 inputs "generator" Hp) as (im & ->); [discriminate |].
  unfold literal. rewrite lookup_insert_eq, Hs1. reflexivity.
Qed.

(** C6: handling a call of [edit_image], whether it returns a response
    or raises, leaves the module globals (the model reference and the
    device) as they were; so does any sequence of calls. *)
Theorem edit_image_stateless (a : Args) (calls : list Args) (s : State) :
  globals (final (edit_image a s)) = globals s /\
  globals (final (serve calls s)) = globals s.
Proof.
  split.
  - change (wp (edit_image a) s (fun _ s' _ => globals s' = globals s)).
    unfold edit_image, edit_image_try, call_model.
    repeat (wp_step; cbn [globals]); reflexivity.
  - revert s. induction calls as [| a' rest IH]; intros s; [reflexivity |].
    cbn [serve].
    pose proof (edit_image_globals a' s) as Hcall.
    destruct (edit_image a' s) as [[r s1] t1].
    pose proof (IH s1) as Hrest.
    destruct (serve rest s1) as [[rs s2] t2].
    unfold final in *; cbn [fst snd] in *. congruence.
Qed.

(** C8: the pipeline receives the default prompt of the edit type when
    the prompt field is the empty string, and the prompt field itself,
    unchanged and independent of the edit type, when it is not empty. *)
Theorem prompt_precedence (a : Args) (s : State) :
  Forall (fun inputs =>
            (prompt a = EmptyString ->
             inputs !! "prompt" =
               Some (VStr (get_prompt_for_edit_type (edit_type a)))) /\
            (prompt a <> EmptyString ->
             inputs !! "prompt" = Some (VStr (prompt a))))
         (calls_of (trace (edit_image a s))).
Proof.
  eapply Forall_impl; [apply edit_image_calls |].
  intros inputs Hp.
  destruct (passed_lookup a s inputs "prompt" Hp) as (im & ->); [discriminate |].
  unfold literal.
  rewrite !(lookup_insert_ne _ _ "prompt") by discriminate.
  rewrite lookup_insert_eq.
  split; intros Hprompt.
  - rewrite Hprompt. reflexivity.
  - destruct (prompt a); [contradiction | reflexivity].
Qed.

(** C9: the image the pipeline receives is the upload read, opened and
    converted with [convert("RGB")], and so is the reference image when
    one was sent (none is passed otherwise); given that [convert] returns
    an image of the mode it was asked for, both are RGB images. *)
Theorem images_converted_to_rgb (a : Args) (s : State) :
  (forall im m w im' w', convert im m w = (inr im', w') -> mode im' = m) ->
  Forall (fun inputs =>
            exists pil_image w1,
              inputs !! "image" = Some (VImage pil_image) /\
              decoded (image a) (world s) pil_image w1 /\
              mode pil_image = "RGB" /\
              match reference_image a with
              | Some ref =>
                  exists ref_image w2,
                    inputs !! "reference_image" = Some (VImage ref_image) /\
                    decoded ref w1 ref_image w2 /\
                    mode ref_image = "RGB"
              | None => inputs !! "reference_image" = None
              end)
         (calls_of (trace (edit_image a s))).
Proof.
  intros Hconvert.
  assert (Hmode : forall u w im w', decoded u w im w' -> mode im = "RGB").
  { intros u w im w' (b & opened & w1 & w2 & _ & _ & Hc).
    exact (Hconvert _ _ _ _ _ Hc). }
  eapply Forall_impl; [apply edit_image_calls |].
  intros inputs (pil_image & w1 & Hdec & Href).
  exists pil_image, w1.
  assert (Himage : literal a (device (globals s)) pil_image !! "image"
                   = Some (VImage pil_image)).
  { unfold literal. rewrite !(lookup_insert_ne _ _ "image") by discriminate.
    apply lookup_insert_eq. }
  assert (Hnoref : literal a (device (globals s)) pil_image !! "reference_image"
                   = None).
  { unfold literal.
    rewrite !(lookup_insert_ne _ _ "reference_image") by discriminate.
    apply lookup_empty. }
  destruct (reference_image a) as [ref |].
  - destruct Href as (ref_image & w2 & Hdec2 & ->).
    rewrite lookup_insert_ne by discriminate.
    repeat split; eauto.
    exists ref_image, w2. rewrite lookup_insert_eq. eauto.
  - subst inputs. repeat split; eauto.
Qed.

(** ** Failures *)

Lemma edit_image_unloaded (a : Args) (s : State) :
  model (globals s) = None ->
  edit_image a s =
    (inl {| status_code := 500;
            detail := "Model not loaded. Please check server logs." |},
     s, []).
Proof.
  intros Hnone. unfold edit_image, bind, get_globals.
  rewrite Hnone. reflexivity.
Qed.

Lemma edit_image_loaded (a : Args) (s : State) (m : Pipeline) :
  model (globals s) = Some m ->
  edit_image a s =
    match edit_image_try a s with
    | (inr response, s1, t1) => (inr response, s1, t1)
    | (inl exc, s1, t1) =>
        (inl {| status_code := 500; detail := str exc |}, s1,
         (t1 ++ [Printed ("Error during image editing: " ++ str exc)])%list)
    end.
Proof.
  intros Hsome. unfold edit_image, bind, get_globals.
  rewrite Hsome. unfold try_except.
  destruct (edit_image_try a s) as [[[exc | response] s1] t1]; reflexivity.
Qed.

(** C2 (amended): every failure of a call of [edit_image] is an HTTP 500
    error.  Its detail is the fixed text "Model not loaded. Please check
    server logs." when the model is unloaded, and otherwise the message
    [str(e)] of whichever exception the [try] block raised. *)
Theorem edit_image_failure (a : Args) (s : State) :
  (model (globals s) = None ->
   outcome (edit_image a s) =
     inl {| status_code := 500;
            detail := "Model not loaded. Please check server logs." |}) /\
  (forall m exc,
     model (globals s) = Some m ->
     outcome (edit_image_try a s) = inl exc ->
     outcome (edit_image a s) = inl {| status_code := 500; detail := str exc |}) /\
  (forall e,
     outcome (edit_image a s) = inl e ->
     status_code e = 500 /\
     (model (globals s) = None \/
      exists exc, outcome (edit_image_try a s) = inl exc /\ detail e = str exc)).
Proof.
  split; [| split].
  - intros Hnone. rewrite (edit_image_unloaded a s Hnone). reflexivity.
  - intros m exc Hsome Hexc. rewrite (edit_image_loaded a s m Hsome).
    destruct (edit_image_try a s) as [[r s1] t1].
    unfold outcome in *; cbn [fst] in *. subst r. reflexivity.
  - intros e He. destruct (model (globals s)) as [m |] eqn:Hmodel.
    + rewrite (edit_image_loaded a s m Hmodel) in He.
      destruct (edit_image_try a s) as [[[exc | response] s1] t1];
        unfold outcome in *; cbn [fst] in *; [| discriminate].
      injection He as <-. split; [reflexivity |]. right. exists exc. auto.
    + rewrite (edit_image_unloaded a s Hmodel) in He.
      unfold outcome in He; cbn [fst] in He. injection He as <-. auto.
Qed.

(** ** Successful responses *)

Lemma edit_image_try_returns (a : Args) (s : State) :
  wp (edit_image_try a) s
     (fun r _ t =>
        match r with
        | inl _ => True
        | inr response =>
            exists m inputs edited_image rest w1 w2 w3,
              model (globals s) = Some m /\
              t = [Called m inputs] /\
              pipeline_call m inputs w1 = (inr (edited_image :: rest), w2) /\
              save edited_image "PNG" w2 = (inr (content response), w3) /\
              media_type response = "image/png" /\
              headers response =
                {[ "Content-Disposition" := "attachment; filename=edited_image.png" ]}
        end).
Proof.
  unfold edit_image_try, call_model.
  repeat (wp_step; cbn [globals world]); try exact I.
  all: cbn [app content media_type headers]; eauto 20.
Qed.

Lemma edit_image_returns (a : Args) (s : State) (response : StreamingResponse) :
  outcome (edit_image a s) = inr response ->
  exists m inputs edited_image rest w1 w2 w3,
    model (globals s) = Some m /\
    trace (edit_image a s) = [Called m inputs] /\
    pipeline_call m inputs w1 = (inr (edited_image :: rest), w2) /\
    save edited_image "PNG" w2 = (inr (content response), w3) /\
    media_type response = "image/png" /\
    headers response =
      {[ "Content-Disposition" := "attachment; filename=edited_image.png" ]}.
Proof.
  intros Hok.
  destruct (model (globals s)) as [m |] eqn:Hmodel.
  - rewrite (edit_image_loaded a s m Hmodel) in Hok |- *.
    pose proof (edit_image_try_returns a s) as Htry. unfold wp in Htry.
    destruct (edit_image_try a s) as [[[exc | r] s1] t1];
      unfold outcome, trace in *; cbn [fst snd] in *; [discriminate |].
    injection Hok as ->.
    destruct Htry as (m' & inputs & im & rest & w1 & w2 & w3 & Hm & Ht & H).
    assert (m' = m) as -> by congruence.
    exists m, inputs, im, rest, w1, w2, w3. auto.
  - rewrite (edit_image_unloaded a s Hmodel) in Hok. discriminate.
Qed.

(** C5: when a call of [edit_image] succeeds, the pipeline was invoked
    once, the body of the response is what saving the first image of its
    output in format "PNG" wrote, the media type is image/png and the
    Content-Disposition header names the attachment edited_image.png. *)
Theorem edit_image_response (a : Args) (s : State) (response : StreamingResponse) :
  outcome (edit_image a s) = inr response ->
  exists m inputs edited_image rest w1 w2 w3,
    model (globals s) = Some m /\
    trace (edit_image a s) = [Called m inputs] /\
    pipeline_call m inputs w1 = (inr (edited_image :: rest), w2) /\
    save edited_image "PNG" w2 = (inr (content response), w3) /\
    media_type response = "image/png" /\
    headers response !! "Content-Disposition" =
      Some "attachment; filename=edited_image.png" /\
    size (headers response) = 1%nat.
Proof.
  intros Hok.
  destruct (edit_image_returns a s response Hok)
    as (m & inputs & im & rest & w1 & w2 & w3 & Hm & Ht & Hcall & Hsave & Hmedia & Hh).
  exists m, inputs, im, rest, w1, w2, w3.
  rewrite Hh. repeat split; auto.
Qed.

(** ** The endpoint and its parameters *)

Lemma bind_form_fields (f : Form) (a : Args) :
  bind_form f = Some a ->
  form_image f = Some (image a) /\
  reference_image a = form_reference_image f /\
  form_edit_type f = Some (edit_type a) /\
  prompt a = default EmptyString (form_prompt f) /\
  negative_prompt a = default EmptyString (form_negative_prompt f) /\
  num_inference_steps a = default 50 (form_num_inference_steps f) /\
  true_cfg_scale a = default 4.0%float (form_true_cfg_scale f).
Proof.
  destruct f as [im ref et p np n c]. unfold bind_form. cbn.
  destruct im, ref, et as [[| ? ?] |], p as [[| ? ?] |], np as [[| ? ?] |], n, c;
    cbn; intros H; try discriminate; injection H as <-; cbn; auto 10.
Qed.

Lemma bind_form_bound (f : Form) (im : UploadFile) (et : string) :
  form_image f = Some im ->
  form_edit_type f = Some et ->
  et <> EmptyString ->
  bind_form f =
    Some {| image := im;
            reference_image := form_reference_image f;
            edit_type := et;
            prompt := default EmptyString (form_prompt f);
            negative_prompt := default EmptyString (form_negative_prompt f);
            num_inference_steps := default 50 (form_num_inference_steps f);
            true_cfg_scale := default 4.0%float (form_true_cfg_scale f) |}.
Proof.
  destruct f as [im' ref et' p np n c]. cbn. intros -> -> Het.
  unfold bind_form. cbn.
  destruct et as [| ? ?]; [contradiction |].
  destruct ref, p as [[| ? ?] |], np as [[| ? ?] |], n, c; reflexivity.
Qed.

Lemma bind_form_required (f : Form) (im : UploadFile) (et : string) :
  form_image f = Some im -> form_edit_type f = Some et -> et <> EmptyString ->
  exists a, bind_form f = Some a.
Proof.
  intros Him Het Hne. rewrite (bind_form_bound f im et Him Het Hne). eauto.
Qed.

Lemma bind_form_unbound (f : Form) :
  form_image f = None \/ form_edit_type f = None \/
  form_edit_type f = Some EmptyString ->
  bind_form f = None.
Proof.
  destruct f as [im ref et p np n c]. cbn. unfold bind_form. cbn.
  intros [-> | [-> | ->]]; [reflexivity | |]; destruct im, ref; reflexivity.
Qed.

Lemma post_edit_image_bound (f : Form) (a : Args) (s : State) :
  bind_form f = Some a ->
  post_edit_image f s =
    (reply_of (outcome (edit_image a s)),
     final (edit_image a s), trace (edit_image a s)).
Proof.
  intros Hbind. unfold post_edit_image. rewrite Hbind.
  destruct (edit_image a s) as [[r s1] t]. reflexivity.
Qed.

Lemma passed_fields (a : Args) (s : State) (inputs : Inputs) :
  passed a s inputs ->
  inputs !! "prompt" =
    Some (VStr (str_or (prompt a) (get_prompt_for_edit_type (edit_type a)))) /\
  inputs !! "negative_prompt" = Some (VStr (negative_prompt a)) /\
  inputs !! "num_inference_steps" = Some (VInt (num_inference_steps a)) /\
  inputs !! "true_cfg_scale" = Some (VFloat (true_cfg_scale a)).
Proof.
  intros Hp. repeat split.
  - destruct (passed_lookup a s inputs "prompt" Hp) as (im & ->); [discriminate |].
    unfold literal. rewrite !(lookup_insert_ne _ _ "prompt") by discriminate.
    apply lookup_insert_eq.
  - destruct (passed_lookup a s inputs "negative_prompt" Hp) as (im & ->);
      [discriminate |].
    unfold literal.
    rewrite !(lookup_insert_ne _ _ "negative_prompt") by discriminate.
    apply lookup_insert_eq.
  - destruct (passed_lookup a s inputs "num_inference_steps" Hp) as (im & ->);
      [discriminate |].
    unfold literal.
    rewrite !(lookup_insert_ne _ _ "num_inference_steps") by discriminate.
    apply lookup_insert_eq.
  - destruct (passed_lookup a s inputs "true_cfg_scale" Hp) as (im & ->);
      [discriminate |].
    unfold literal.
    rewrite !(lookup_insert_ne _ _ "true_cfg_scale") by discriminate.
    apply lookup_insert_eq.
Qed.

(** C4: of the routes of the application exactly one accepts POST,
    "/edit-image", served by the endpoint that binds the seven form
    fields.  A form with an image and a non-empty edit type is bound,
    with or without a reference image: the handler runs on the image,
    the edit type, the reference image if any, and each of prompt,
    negative prompt, step count and guidance scale as sent or else at
    its default; without a reference image none is passed to the
    pipeline.  A form lacking the image or the edit type never reaches
    the handler.  Whenever the endpoint streams a response back, its
    media type is image/png and its body is what saving an image in
    format "PNG" wrote. *)
Theorem single_post_endpoint :
  List.filter is_post (routes app) =
    [ {| route_methods := [POST];
         route_path := "/edit-image";
         route_endpoint := Handler post_edit_image |} ] /\
  (forall (f : Form) (s : State) (im : UploadFile) (et : string),
     form_image f = Some im ->
     form_edit_type f = Some et ->
     et <> EmptyString ->
     let a := {| image := im;
                 reference_image := form_reference_image f;
                 edit_type := et;
                 prompt := default EmptyString (form_prompt f);
                 negative_prompt := default EmptyString (form_negative_prompt f);
                 num_inference_steps := default 50 (form_num_inference_steps f);
                 true_cfg_scale := default 4.0%float (form_true_cfg_scale f) |} in
     bind_form f = Some a /\
     post_edit_image f s =
       (reply_of (outcome (edit_image a s)),
        final (edit_image a s), trace (edit_image a s)) /\
     (form_reference_image f = None ->
      Forall (fun inputs : Inputs => inputs !! "reference_image" = None)
             (calls_of (trace (post_edit_image f s))))) /\
  (forall (f : Form) (s : State),
     form_image f = None \/ form_edit_type f = None \/
     form_edit_type f = Some EmptyString ->
     post_edit_image f s = (Unbound, s, [])) /\
  (forall (f : Form) (s : State) (response : StreamingResponse),
     outcome (post_edit_image f s) = Streamed response ->
     media_type response = "image/png" /\
     exists edited_image w w',
       save edited_image "PNG" w = (inr (content response), w')).
Proof.
  split; [reflexivity |]. split; [| split].
  - intros f s im et Him Het Hne a.
    pose proof (bind_form_bound f im et Him Het Hne) as Hbind. fold a in Hbind.
    split; [exact Hbind |].
    rewrite (post_edit_image_bound f a s Hbind).
    split; [reflexivity |].
    intros Href. unfold trace at 1; cbn [snd].
    eapply Forall_impl; [apply edit_image_calls |].
    intros inputs (pil_image & w1 & _ & Hin).
    unfold a in Hin; cbn [reference_image] in Hin.
    rewrite Href in Hin. subst inputs. unfold literal.
    rewrite !(lookup_insert_ne _ _ "reference_image") by discriminate.
    apply lookup_empty.
  - intros f s Hmissing. unfold post_edit_image.
    rewrite (bind_form_unbound f Hmissing). reflexivity.
  - intros f s response Hout.
    unfold post_edit_image in Hout.
    destruct (bind_form f) as [a |]; [| discriminate].
    pose proof (edit_image_returns a s) as Hresp.
    destruct (edit_image a s) as [[[e | r] s1] t];
      unfold outcome in *; cbn [fst reply_of] in *; [discriminate |].
    injection Hout as ->.
    destruct (Hresp response eq_refl)
      as (m & inputs & im & rest & w1 & w2 & w3 & _ & _ & _ & Hsave & Hmedia & _).
    eauto.
Qed.

(** C10: a bound request that omits the prompt, the negative prompt, the
    step count or the guidance scale runs with the empty string, the
    empty string, 50 or 4.0 for that parameter, and the pipeline then
    receives the edit type's default prompt, the empty negative prompt,
    50 steps and scale 4.0. *)
Theorem form_field_defaults (f : Form) (a : Args) (s : State) :
  bind_form f = Some a ->
  (form_prompt f = None -> prompt a = EmptyString) /\
  (form_negative_prompt f = None -> negative_prompt a = EmptyString) /\
  (form_num_inference_steps f = None -> num_inference_steps a = 50) /\
  (form_true_cfg_scale f = None -> true_cfg_scale a = 4.0%float) /\
  form_edit_type f = Some (edit_type a) /\
  Forall (fun inputs : Inputs =>
            (form_prompt f = None ->
             inputs !! "prompt" =
               Some (VStr (get_prompt_for_edit_type (edit_type a)))) /\
            (form_negative_prompt f = None ->
             inputs !! "negative_prompt" = Some (VStr EmptyString)) /\
            (form_num_inference_steps f = None ->
             inputs !! "num_inference_steps" = Some (VInt 50)) /\
            (form_true_cfg_scale f = None ->
             inputs !! "true_cfg_scale" = Some (VFloat 4.0%float)))
         (calls_of (trace (post_edit_image f s))).
Proof.
  intros Hbind.
  destruct (bind_form_fields f a Hbind) as (_ & _ & Het & Hp & Hnp & Hn & Hc).
  assert (Hprompt : form_prompt f = None -> prompt a = EmptyString)
    by (intros E; rewrite Hp, E; reflexivity).
  assert (Hneg : form_negative_prompt f = None -> negative_prompt a = EmptyString)
    by (intros E; rewrite Hnp, E; reflexivity).
  assert (Hsteps : form_num_inference_steps f = None -> num_inference_steps a = 50)
    by (intros E; rewrite Hn, E; reflexivity).
  assert (Hscale : form_true_cfg_scale f = None -> true_cfg_scale a = 4.0%float)
    by (intros E; rewrite Hc, E; reflexivity).
  repeat (split; [assumption |]).
  rewrite (post_edit_image_bound f a s Hbind). unfold trace at 1; cbn [snd].
  eapply Forall_impl; [apply edit_image_calls |].
  intros inputs Hpassed.
  destruct (passed_fields a s inputs Hpassed) as (-> & -> & -> & ->).
  repeat split; intros E.
  - rewrite (Hprompt E). reflexivity.
  - rewrite (Hneg E). reflexivity.
  - rewrite (Hsteps E). reflexivity.
  - rewrite (Hscale E). reflexivity.
Qed.

(** ** Loading the model *)

Lemma select_device_dtype (w : World) :
  (if String.eqb (select_device w) "cuda" then bfloat16 else float32) =
  (if cuda_is_available w then bfloat16 else float32).
Proof. unfold select_device. destruct (cuda_is_available w); reflexivity. Qed.

Lemma serve_keeps_globals (calls : list Args) (s : State) :
  globals (final (serve calls s)) = globals s.
Proof.
  revert s. induction calls as [| a rest IH]; intros s; [reflexivity |].
  cbn [serve].
  pose proof (edit_image_globals a s) as Ha.
  destruct (edit_image a s) as [[r s1] t1].
  pose proof (IH s1) as Hrest.
  destruct (serve rest s1) as [[rs s2] t2].
  unfold final in *; cbn [fst snd] in *. congruence.
Qed.

Lemma load_model_try_state (s : State) :
  wp load_model_try s
     (fun r s1 _ =>
        (match r with
         | inl _ => None
         | inr _ => model (globals s1)
         end, world s1) =
        match from_pretrained "Qwen/Qwen-Image-Edit"
                (if String.eqb (device (globals s)) "cuda" then bfloat16 else float32)
                (world s) with
        | (inl _, w1) => (None, w1)
        | (inr m, w1) =>
            match to m (device (globals s)) w1 with
            | (inl _, w2) => (None, w2)
            | (inr m', w2) =>
                match enable_model_cpu_offload m' w2 with
                | (inl _, w3) => (None, w3)
                | (inr _, w3) => (Some m', w3)
                end
            end
        end).
Proof.
  unfold load_model_try.
  repeat (wp_step; cbn [globals world model device]);
    repeat match goal with
           | H : ?t = _ |- context [?t] => rewrite H
           end;
    reflexivity.
Qed.

Lemma load_model_try_loads (s : State) :
  loads (trace (load_model_try s)) = 1%nat.
Proof.
  change (wp load_model_try s (fun _ _ t => loads t = 1%nat)).
  unfold load_model_try.
  repeat (wp_step; cbn [globals world]); reflexivity.
Qed.

Lemma load_model_try_returns (s : State) :
  wp load_model_try s
     (fun r s1 _ =>
        match r with
        | inr _ => exists m, model (globals s1) = Some m
        | inl _ => True
        end).
Proof.
  unfold load_model_try.
  repeat (wp_step; cbn [globals world model]); eauto.
Qed.

Lemma load_model_run {E} (s : State) :
  load_model (E := E) s =
    match load_model_try s with
    | (inr u, s1, t1) => (inr u, s1, t1)
    | (inl exc, s1, t1) =>
        (inr tt,
         {| globals := {| model := None; device := device (globals s1) |};
            world := world s1 |},
         (t1 ++ [Printed ("Error loading model: " ++ str exc)])%list)
    end.
Proof.
  unfold load_model, try_except.
  destruct (load_model_try s) as [[[exc | u] s1] t1]; reflexivity.
Qed.

Lemma startup_run (w : World) :
  startup w =
    (final (load_model (E := Empty_set) (fst (module_init w))),
     (snd (module_init w)
      ++ trace (load_model (E := Empty_set) (fst (module_init w))))%list).
Proof.
  unfold startup, app, on_startup, run_hooks.
  destruct (module_init w) as [s0 t0]. cbn [fst snd].
  destruct (load_model s0) as [[r s1] t1].
  unfold final, trace; cbn [fst snd]. rewrite app_nil_r. reflexivity.
Qed.

Lemma edit_image_loads (a : Args) (s : State) :
  loads (trace (edit_image a s)) = 0%nat.
Proof.
  change (wp (edit_image a) s (fun _ _ t => loads t = 0%nat)).
  unfold edit_image, edit_image_try, call_model.
  repeat (wp_step; cbn [globals world]); reflexivity.
Qed.

Lemma serve_loads (calls : list Args) (s : State) :
  loads (trace (serve calls s)) = 0%nat.
Proof.
  revert s. induction calls as [| a rest IH]; intros s; [reflexivity |].
  cbn [serve].
  pose proof (edit_image_loads a s) as Ha.
  destruct (edit_image a s) as [[r s1] t1].
  pose proof (IH s1) as Hrest.
  destruct (serve rest s1) as [[rs s2] t2].
  unfold trace in *; cbn [snd] in *.
  rewrite loads_app, Ha, Hrest. reflexivity.
Qed.

Lemma serve_unloaded (calls : list Args) (s : State) :
  model (globals s) = None ->
  serve calls s =
    (map (fun _ => inl {| status_code := 500;
                          detail := "Model not loaded. Please check server logs." |})
         calls,
     s, []).
Proof.
  intros Hnone. induction calls as [| a rest IH]; [reflexivity |].
  cbn [serve map]. rewrite (edit_image_unloaded a s Hnone), IH. reflexivity.
Qed.

(** C7: the pretrained pipeline is loaded exactly once, by the startup
    hook, and never by the handler.  Startup calls [from_pretrained] on
    the world it starts in, then [.to(device)] and
    [enable_model_cpu_offload] on the results; the global [model] is the
    moved pipeline when all three succeed and [None] when one of them
    raises, and the world is the one the last step left.  No sequence of
    handler calls loads anything or changes [model].  When [model] is
    [None] after startup, every call of the handler raises the HTTP 500
    error "Model not loaded. Please check server logs." without
    touching the state or calling any library. *)
Theorem model_loaded_once (w : World) (calls : list Args) :
  let s0 := fst (module_init w) in
  let s1 := fst (startup w) in
  loads (snd (startup w)) = 1%nat /\
  loads (trace (serve calls s1)) = 0%nat /\
  (model (globals s1), world s1) =
    match from_pretrained "Qwen/Qwen-Image-Edit"
            (if cuda_is_available w then bfloat16 else float32) w with
    | (inl _, w1) => (None, w1)
    | (inr m, w1) =>
        match to m (select_device w) w1 with
        | (inl _, w2) => (None, w2)
        | (inr m', w2) =>
            match enable_model_cpu_offload m' w2 with
            | (inl _, w3) => (None, w3)
            | (inr _, w3) => (Some m', w3)
            end
        end
    end /\
  model (globals (final (serve calls s1))) = model (globals s1) /\
  (forall exc, outcome (load_model_try s0) = inl exc -> model (globals s1) = None) /\
  (forall u, outcome (load_model_try s0) = inr u -> exists m, model (globals s1) = Some m) /\
  (model (globals s1) = None ->
   Forall (fun r => r = inl {| status_code := 500;
                               detail := "Model not loaded. Please check server logs." |})
          (outcome (serve calls s1)) /\
   length (outcome (serve calls s1)) = length calls /\
   final (serve calls s1) = s1 /\
   trace (serve calls s1) = []).
Proof.
  intros s0 s1.
  assert (Hunloaded :
            model (globals s1) = None ->
            Forall (fun r => r = inl {| status_code := 500;
                                        detail := "Model not loaded. Please check server logs." |})
                   (outcome (serve calls s1)) /\
            length (outcome (serve calls s1)) = length calls /\
            final (serve calls s1) = s1 /\
            trace (serve calls s1) = []).
  { intros Hnone. rewrite (serve_unloaded calls s1 Hnone).
    unfold outcome, final, trace; cbn [fst snd].
    rewrite length_map. repeat split. apply Forall_map_const. }
  assert (Hkeeps : model (globals (final (serve calls s1))) = model (globals s1))
    by (rewrite serve_keeps_globals; reflexivity).
  revert Hunloaded Hkeeps. generalize (serve_loads calls s1).
  subst s1. rewrite startup_run. cbn [fst snd].
  rewrite (load_model_run s0).
  pose proof (load_model_try_loads s0) as Hloads.
  pose proof (load_model_try_returns s0) as Hret.
  pose proof (load_model_try_state s0) as Hstate.
  unfold wp in Hret, Hstate.
  destruct (load_model_try s0) as [[[exc | u] s1] t1];
    unfold outcome, final, trace in *; cbn [fst snd globals world model] in *;
    subst s0; cbn [module_init fst globals world device] in Hstate;
    rewrite select_device_dtype in Hstate;
    intros Hserve Hunloaded Hkeeps;
    (split; [rewrite !loads_app, Hloads; reflexivity |]);
    (split; [exact Hserve |]);
    (split; [exact Hstate |]);
    (split; [exact Hkeeps |]);
    (split; [| split; [| exact Hunloaded]]).
  - reflexivity.
  - discriminate.
  - discriminate.
  - intros _ _. exact Hret.
Qed.

(** ** The pipeline is reached *)


End Properties.

(** * The properties at work on the concrete instance *)

Lemma get_prompt_for_edit_type_table_witness :
  ("sharpen" ∉ ["remove_bg"; "replace_bg_auto"; "replace_bg_custom";
                "enhance"; "colorize"]) /\
  get_prompt_for_edit_type "sharpen" = "Enhance this image appropriately.".
Proof.
  assert (H : "sharpen" ∉ ["remove_bg"; "replace_bg_auto"; "replace_bg_custom";
                           "enhance"; "colorize"]).
  { rewrite !not_elem_of_cons. repeat split; try discriminate.
    apply not_elem_of_nil. }
  split; [exact H |].
  destruct get_prompt_for_edit_type_table as (_ & _ & _ & _ & _ & Hfallback).
  exact (Hfallback "sharpen" H).
Defined.

(** C2 as stated fails: with the model unloaded the detail is the fixed
    "Model not loaded" text, while an upload that cannot be opened is
    reported with the message of the library's exception; no single
    payload covers both. *)
Lemma edit_image_error_payloads_differ :
  outcome (edit_image Demo.plain Demo.unloaded) =
    inl {| status_code := 500;
           detail := "Model not loaded. Please check server logs." |} /\
  outcome (edit_image Demo.blank Demo.loaded) =
    inl {| status_code := 500; detail := "cannot identify image file" |} /\
  ~ (exists generic : HTTPException,
       forall (L : Libraries) (a : Args) (s : State) (e : HTTPException),
         outcome (edit_image a s) = inl e -> e = generic).
Proof.
  split; [reflexivity |]. split; [reflexivity |].
  intros (generic & Hall).
  pose proof (Hall Demo.libs Demo.plain Demo.unloaded _ eq_refl) as H1.
  pose proof (Hall Demo.libs Demo.blank Demo.loaded _ eq_refl) as H2.
  rewrite <- H2 in H1. discriminate H1.
Qed.

Lemma edit_image_failure_witness :
  model (globals Demo.loaded) = Some tt /\
  outcome (edit_image_try Demo.blank Demo.loaded) =
    inl {| str := "cannot identify image file" |} /\
  outcome (edit_image Demo.blank Demo.loaded) =
    inl {| status_code := 500; detail := "cannot identify image file" |}.
Proof.
  split; [reflexivity |]. split; [reflexivity |].
  destruct (edit_image_failure Demo.blank Demo.loaded) as (_ & Hcaught & _).
  exact (Hcaught tt {| str := "cannot identify image file" |} eq_refl eq_refl).
Defined.

Lemma generator_seed_fixed_witness :
  length (calls_of (trace (serve [Demo.plain; Demo.custom] Demo.loaded))) = 2%nat /\
  Forall (fun inputs : gmap string (Value Demo.Picture) =>
            inputs !! "generator" =
              Some (VGenerator {| gen_device := "cpu"; gen_seed := Some 42 |}))
         (calls_of (trace (serve [Demo.plain; Demo.custom] Demo.loaded))).
Proof.
  split; [reflexivity |].
  exact (generator_seed_fixed (L := Demo.libs) [Demo.plain; Demo.custom] Demo.loaded).
Defined.

Lemma single_post_endpoint_witness :
  bind_form Demo.minimal =
    Some {| image := Demo.png : UploadFile (Libraries := Demo.libs);
            reference_image := None;
            edit_type := "colorize";
            prompt := EmptyString;
            negative_prompt := EmptyString;
            num_inference_steps := 50;
            true_cfg_scale := 4.0%float |} /\
  outcome (post_edit_image Demo.minimal Demo.loaded) =
    Streamed {| content := Demo.png;
                media_type := "image/png";
                headers := {[ "Content-Disposition" :=
                              "attachment; filename=edited_image.png" ]} |} /\
  calls_of (trace (post_edit_image Demo.minimal Demo.loaded)) <> [] /\
  Forall (fun inputs : gmap string (Value Demo.Picture) =>
            inputs !! "reference_image" = None)
         (calls_of (trace (post_edit_image Demo.minimal Demo.loaded))) /\
  bind_form Demo.detailed =
    Some {| image := Demo.png : UploadFile (Libraries := Demo.libs);
            reference_image := Some (Demo.png : UploadFile (Libraries := Demo.libs));
            edit_type := "replace_bg_custom";
            prompt := "Put the subject on a beach.";
            negative_prompt := "blurry";
            num_inference_steps := 20;
            true_cfg_scale := 2.5%float |} /\
  post_edit_image Demo.unnamed Demo.loaded = (Unbound, Demo.loaded, []).
Proof.
  destruct (single_post_endpoint (L := Demo.libs)) as (_ & Hbound & Hunbound & _).
  destruct (Hbound Demo.minimal Demo.loaded Demo.png "colorize"
              eq_refl eq_refl ltac:(discriminate))
    as (Hbind & _ & Hcalls).
  destruct (Hbound Demo.detailed Demo.loaded Demo.png "replace_bg_custom"
              eq_refl eq_refl ltac:(discriminate))
    as (Hbind' & _ & _).
  split; [exact Hbind |]. split; [reflexivity |]. split; [discriminate |].
  split; [exact (Hcalls eq_refl) |]. split; [exact Hbind' |].
  apply Hunbound. right. right. reflexivity.
Defined.

Lemma edit_image_response_witness :
  outcome (edit_image Demo.plain Demo.loaded) =
    inr {| content := Demo.png;
           media_type := "image/png";
           headers := {[ "Content-Disposition" :=
                         "attachment; filename=edited_image.png" ]} |} /\
  exists (inputs : gmap string (Value Demo.Picture)) edited_image rest w1 w2 w3,
    trace (edit_image Demo.plain Demo.loaded) = [Called (L := Demo.libs) tt inputs] /\
    pipeline_call (Libraries := Demo.libs) tt inputs w1 =
      (inr (edited_image :: rest), w2) /\
    save (Libraries := Demo.libs) edited_image "PNG" w2 = (inr Demo.png, w3).
Proof.
  split; [reflexivity |].
  destruct (edit_image_response (L := Demo.libs) Demo.plain Demo.loaded _ eq_refl)
    as (m & inputs & im & rest & w1 & w2 & w3 & _ & Ht & Hcall & Hsave & _).
  destruct m. exists inputs, im, rest, w1, w2, w3. auto.
Defined.

Lemma edit_image_stateless_witness :
  globals (final (edit_image Demo.blank Demo.loaded)) = globals Demo.loaded /\
  globals (final (serve [Demo.plain; Demo.blank; Demo.custom] Demo.loaded)) =
    globals Demo.loaded.
Proof.
  exact (edit_image_stateless (L := Demo.libs) Demo.blank
           [Demo.plain; Demo.blank; Demo.custom] Demo.loaded).
Defined.

Lemma model_loaded_once_witness :
  outcome (load_model_try (fst (module_init (L := Demo.libs) false))) =
    inl {| str := "weights not found" |} /\
  snd (startup (L := Demo.libs) false) =
    [Printed "Using device: cpu"; Pretrained "Qwen/Qwen-Image-Edit" float32;
     Printed "Error loading model: weights not found"] /\
  model (globals (fst (startup (L := Demo.libs) false))) = None /\
  Forall (fun r => r = inl {| status_code := 500;
                              detail := "Model not loaded. Please check server logs." |})
         (outcome (serve [Demo.plain; Demo.custom]
                         (fst (startup (L := Demo.libs) false)))) /\
  length (outcome (serve [Demo.plain; Demo.custom]
                         (fst (startup (L := Demo.libs) false)))) = 2%nat /\
  snd (startup (L := Demo.libs) true) =
    [Printed "Using device: cpu"; Pretrained "Qwen/Qwen-Image-Edit" float32;
     Printed "Qwen Image Edit model loaded successfully!"] /\
  (model (globals (fst (startup (L := Demo.libs) true))),
   world (fst (startup (L := Demo.libs) true))) = (Some tt, true) /\
  loads (snd (startup (L := Demo.libs) true)) = 1%nat /\
  calls_of (trace (serve [Demo.plain; Demo.custom]
                         (fst (startup (L := Demo.libs) true)))) <> [] /\
  loads (trace (serve [Demo.plain; Demo.custom]
                      (fst (startup (L := Demo.libs) true)))) = 0%nat /\
  model (globals (final (serve [Demo.plain; Demo.custom]
                               (fst (startup (L := Demo.libs) true))))) = Some tt.
Proof.
  split; [reflexivity |]. split; [reflexivity |].
  destruct (model_loaded_once (L := Demo.libs) false [Demo.plain; Demo.custom])
    as (_ & _ & _ & _ & Hfails & _ & Hrejects).
  pose proof (Hfails {| str := "weights not found" |} eq_refl) as Hnone.
  destruct (Hrejects Hnone) as (Hall & Hlen & _).
  split; [exact Hnone |]. split; [exact Hall |]. split; [exact Hlen |].
  split; [reflexivity |].
  destruct (model_loaded_once (L := Demo.libs) true [Demo.plain; Demo.custom])
    as (Hone & Hzero & Hstate & Hkeeps & _ & Hloaded & _).
  split; [exact Hstate |]. split; [exact Hone |]. split; [discriminate |].
  split; [exact Hzero |].
  rewrite Hkeeps. exact (f_equal fst Hstate).
Defined.

Lemma prompt_precedence_witness :
  calls_of (trace (edit_image Demo.custom Demo.loaded)) <> [] /\
  Forall (fun inputs : gmap string (Value Demo.Picture) =>
            inputs !! "prompt" = Some (VStr "Put the subject on a beach."))
         (calls_of (trace (edit_image Demo.custom Demo.loaded))) /\
  calls_of (trace (edit_image Demo.plain Demo.loaded)) <> [] /\
  Forall (fun inputs : gmap string (Value Demo.Picture) =>
            inputs !! "prompt" =
              Some (VStr "Enhance the image quality, improve sharpness, color balance, and overall visual appeal."))
         (calls_of (trace (edit_image Demo.plain Demo.loaded))).
Proof.
  split; [discriminate |]. split; [| split; [discriminate |]].
  - eapply Forall_impl;
      [exact (prompt_precedence (L := Demo.libs) Demo.custom Demo.loaded) |].
    intros inputs (_ & Hgiven). apply Hgiven. discriminate.
  - eapply Forall_impl;
      [exact (prompt_precedence (L := Demo.libs) Demo.plain Demo.loaded) |].
    intros inputs (Hdefault & _). exact (Hdefault eq_refl).
Defined.

Lemma images_converted_to_rgb_witness :
  (forall im m w im' w',
     convert (Libraries := Demo.libs) im m w = (inr im', w') ->
     mode (Libraries := Demo.libs) im' = m) /\
  calls_of (trace (edit_image Demo.custom Demo.loaded)) <> [] /\
  Forall (fun inputs : gmap string (Value Demo.Picture) =>
            exists pil_image ref_image,
              inputs !! "image" = Some (VImage pil_image) /\
              Demo.pic_mode pil_image = "RGB" /\
              inputs !! "reference_image" = Some (VImage ref_image) /\
              Demo.pic_mode ref_image = "RGB")
         (calls_of (trace (edit_image Demo.custom Demo.loaded))).
Proof.
  assert (Hconvert : forall im m w im' w',
             convert (Libraries := Demo.libs) im m w = (inr im', w') ->
             mode (Libraries := Demo.libs) im' = m).
  { intros im m w im' w' H. simpl in H. injection H as <- _. reflexivity. }
  split; [exact Hconvert |]. split; [discriminate |].
  eapply Forall_impl;
    [exact (images_converted_to_rgb (L := Demo.libs) Demo.custom Demo.loaded Hconvert) |].
  intros inputs (pil_image & w1 & Himage & _ & Hmode & Href).
  cbn [reference_image Demo.custom] in Href.
  destruct Href as (ref_image & w2 & Hrefimage & _ & Hrefmode).
  exists pil_image, ref_image. auto.
Defined.

Lemma form_field_defaults_witness :
  bind_form Demo.minimal =
    Some {| image := Demo.png : UploadFile (Libraries := Demo.libs);
            reference_image := None;
            edit_type := "colorize";
            prompt := EmptyString;
            negative_prompt := EmptyString;
            num_inference_steps := 50;
            true_cfg_scale := 4.0%float |} /\
  calls_of (trace (post_edit_image Demo.minimal Demo.loaded)) <> [] /\
  Forall (fun inputs : gmap string (Value Demo.Picture) =>
            inputs !! "prompt" =
              Some (VStr "Adjust colors, improve contrast, and enhance visual quality while maintaining original style.") /\
            inputs !! "negative_prompt" = Some (VStr EmptyString) /\
            inputs !! "num_inference_steps" = Some (VInt 50) /\
            inputs !! "true_cfg_scale" = Some (VFloat 4.0%float))
         (calls_of (trace (post_edit_image Demo.minimal Demo.loaded))).
Proof.
  split; [reflexivity |]. split; [discriminate |].
  destruct (form_field_defaults (L := Demo.libs) Demo.minimal _ Demo.loaded eq_refl)
    as (_ & _ & _ & _ & _ & Hcalls).
  eapply Forall_impl; [exact Hcalls |].
  intros inputs (Hp & Hnp & Hn & Hc).
  split; [exact (Hp eq_refl) |]. split; [exact (Hnp eq_refl) |].
  split; [exact (Hn eq_refl) | exact (Hc eq_refl)].
Defined.

(** * Further properties of the handler and of startup *)

(** Use the library results already known when a step meets them. *)
Ltac wp_known :=
  repeat match goal with
         | H : None = Some _ |- _ => discriminate H
         | H : Some ?x = Some ?y |- _ =>
             injection H as H; first [ subst x | subst y ]
         | H1 : ?t = _, H2 : ?t = _ |- _ =>
             rewrite H1 in H2;
             first [ discriminate H2
                   | injection H2 as <- <-
                   | injection H2 as <- ]
         end.

Ltac wp_exec := repeat (wp_step; cbn [globals world]; wp_known).

Section Further.
Context {L : Libraries}.

Lemma wp_run {E A} (m : M E A) (s : State) (x : (E + A) * State * list Event) :
  wp m s (fun r s1 t => (r, s1, t) = x) -> m s = x.
Proof.
  unfold wp, outcome, final, trace.
  destruct (m s) as [[r s1] t]. exact (fun H => H).
Qed.

(** ** Uploads that cannot be decoded *)

Lemma edit_image_try_bad_upload (a : Args) (s : State) (exc : Exception) (w' : World) :
  undecodable (image a) (world s) exc w' ->
  edit_image_try a s = (inl exc, {| globals := globals s; world := w' |}, []).
Proof.
  intros Hbad. apply wp_run. unfold edit_image_try.
  destruct Hbad as [H | [(b & w1 & H1 & H2) | (b & opened & w1 & w2 & H1 & H2 & H3)]];
    wp_exec; reflexivity.
Qed.

(** X1: with the model loaded, a main image that cannot be read, opened
    or converted makes the handler raise HTTP 500 with the message of
    the library's exception, print one error line, and stop there: the
    pipeline is not invoked and the world is as the failing step left
    it. *)
Theorem edit_image_bad_upload (a : Args) (s : State) (m : Pipeline)
    (exc : Exception) (w' : World) :
  model (globals s) = Some m ->
  undecodable (image a) (world s) exc w' ->
  edit_image a s =
    (inl {| status_code := 500; detail := str exc |},
     {| globals := globals s; world := w' |},
     [Printed ("Error during image editing: " ++ str exc)]).
Proof.
  intros Hmodel Hbad.
  rewrite (edit_image_loaded a s m Hmodel).
  rewrite (edit_image_try_bad_upload a s exc w' Hbad). reflexivity.
Qed.

(** X2: with the model loaded and the main image decoded, a reference
    image that cannot be read, opened or converted makes the handler
    raise HTTP 500 with the library's message; the pipeline is not
    invoked. *)
Theorem edit_image_bad_reference (a : Args) (s : State) (m : Pipeline)
    (pil_image : PILImage) (w1 : World) (ref : UploadFile)
    (exc : Exception) (w' : World) :
  model (globals s) = Some m ->
  decoded (image a) (world s) pil_image w1 ->
  reference_image a = Some ref ->
  undecodable ref w1 exc w' ->
  edit_image a s =
    (inl {| status_code := 500; detail := str exc |},
     {| globals := globals s; world := w' |},
     [Printed ("Error during image editing: " ++ str exc)]).
Proof.
  intros Hmodel (b & opened & u1 & u2 & Hr & Ho & Hc) Href Hbad.
  rewrite (edit_image_loaded a s m Hmodel).
  assert (edit_image_try a s =
            (inl exc, {| globals := globals s; world := w' |}, [])) as ->.
  { apply wp_run. unfold edit_image_try.
    destruct (reference_image a) as [ref' |]; [| discriminate Href].
    injection Href as ->.
    destruct Hbad as [H | [(b' & v1 & H1 & H2) | (b' & o' & v1 & v2 & H1 & H2 & H3)]];
      wp_exec; reflexivity. }
  reflexivity.
Qed.

(** ** After the uploads are decoded *)

(** Run the [try] block from a state in which the uploads decode and
    the results of the later library calls are known. *)
Ltac run_prepared Hprepared :=
  let Href := fresh "Href" in
  destruct Hprepared as (?pil_image & ?w1 & (?b & ?opened & ?u1 & ?u2 & ? & ? & ?) & Href);
  apply wp_run; unfold edit_image_try, call_model, literal in *;
  match goal with
  | |- context [reference_image ?a] => destruct (reference_image a)
  end;
  [ destruct Href as (?ref_image & (?b & ?opened & ?v1 & ?v2 & ? & ? & ?) & ->)
  | destruct Href as [-> ->] ];
  wp_exec; reflexivity.

(** X3: with the model loaded and the uploads decoded, when the pipeline
    returns at least one image and saving the first one as PNG succeeds,
    the handler returns: it invokes the pipeline once, prints nothing,
    and streams the saved bytes as image/png. *)
Theorem edit_image_succeeds (a : Args) (s : State) (m : Pipeline)
    (inputs : Inputs) (w w2 w3 : World)
    (edited_image : PILImage) (rest : list PILImage) (img_bytes : bytes) :
  model (globals s) = Some m ->
  prepared a s inputs w ->
  pipeline_call m inputs w = (inr (edited_image :: rest), w2) ->
  save edited_image "PNG" w2 = (inr img_bytes, w3) ->
  edit_image a s =
    (inr {| content := img_bytes;
            media_type := "image/png";
            headers := {[ "Content-Disposition" :=
                          "attachment; filename=edited_image.png" ]} |},
     {| globals := globals s; world := w3 |},
     [Called m inputs]).
Proof.
  intros Hmodel Hprepared Hcall Hsave.
  rewrite (edit_image_loaded a s m Hmodel).
  assert (edit_image_try a s =
            (inr {| content := img_bytes;
                    media_type := "image/png";
                    headers := {[ "Content-Disposition" :=
                                  "attachment; filename=edited_image.png" ]} |},
             {| globals := globals s; world := w3 |},
             [Called m inputs])) as ->
    by run_prepared Hprepared.
  reflexivity.
Qed.

(** X4: when the pipeline returns an empty list of images, indexing it
    fails and the handler raises HTTP 500 with detail "list index out of
    range"; nothing is saved. *)
Theorem edit_image_empty_output (a : Args) (s : State) (m : Pipeline)
    (inputs : Inputs) (w w2 : World) :
  model (globals s) = Some m ->
  prepared a s inputs w ->
  pipeline_call m inputs w = (inr [], w2) ->
  edit_image a s =
    (inl {| status_code := 500; detail := "list index out of range" |},
     {| globals := globals s; world := w2 |},
     [Called m inputs;
      Printed "Error during image editing: list index out of range"]).
Proof.
  intros Hmodel Hprepared Hcall.
  rewrite (edit_image_loaded a s m Hmodel).
  assert (edit_image_try a s =
            (inl {| str := "list index out of range" |},
             {| globals := globals s; world := w2 |},
             [Called m inputs])) as ->
    by run_prepared Hprepared.
  reflexivity.
Qed.

(** X5: when the pipeline raises, the handler raises HTTP 500 with the
    pipeline's message and prints it after the invocation; nothing is
    saved. *)
Theorem edit_image_pipeline_error (a : Args) (s : State) (m : Pipeline)
    (inputs : Inputs) (w w2 : World) (exc : Exception) :
  model (globals s) = Some m ->
  prepared a s inputs w ->
  pipeline_call m inputs w = (inl exc, w2) ->
  edit_image a s =
    (inl {| status_code := 500; detail := str exc |},
     {| globals := globals s; world := w2 |},
     [Called m inputs;
      Printed ("Error during image editing: " ++ str exc)]).
Proof.
  intros Hmodel Hprepared Hcall.
  rewrite (edit_image_loaded a s m Hmodel).
  assert (edit_image_try a s =
            (inl exc, {| globals := globals s; world := w2 |},
             [Called m inputs])) as ->
    by run_prepared Hprepared.
  reflexivity.
Qed.

(** X6: when the pipeline returned an image but saving it as PNG
    raises, the handler raises HTTP 500 with the message of that
    exception. *)
Theorem edit_image_save_error (a : Args) (s : State) (m : Pipeline)
    (inputs : Inputs) (w w2 w3 : World)
    (edited_image : PILImage) (rest : list PILImage) (exc : Exception) :
  model (globals s) = Some m ->
  prepared a s inputs w ->
  pipeline_call m inputs w = (inr (edited_image :: rest), w2) ->
  save edited_image "PNG" w2 = (inl exc, w3) ->
  edit_image a s =
    (inl {| status_code := 500; detail := str exc |},
     {| globals := globals s; world := w3 |},
     [Called m inputs;
      Printed ("Error during image editing: " ++ str exc)]).
Proof.
  intros Hmodel Hprepared Hcall Hsave.
  rewrite (edit_image_loaded a s m Hmodel).
  assert (edit_image_try a s =
            (inl exc, {| globals := globals s; world := w3 |},
             [Called m inputs])) as ->
    by run_prepared Hprepared.
  reflexivity.
Qed.

(** ** When the pipeline is invoked, and with what *)



(** X8: the pipeline is called with exactly the six keywords image,
    prompt, negative_prompt, num_inference_steps, true_cfg_scale and
    generator, and with reference_image as a seventh exactly when a
    reference image was sent. *)
Theorem pipeline_keywords (a : Args) (s : State) :
  Forall (fun inputs : Inputs =>
            dom inputs =
              match reference_image a with
              | Some _ => {[ "reference_image" ]} ∪ literal_keys
              | None => literal_keys
              end)
         (calls_of (trace (edit_image a s))).
Proof.
  eapply Forall_impl; [apply edit_image_calls |].
  intros inputs (pil_image & w1 & _ & Href).
  assert (Hdom : dom (literal a (device (globals s)) pil_image) = literal_keys).
  { unfold literal, literal_keys. rewrite !dom_insert_L, dom_empty_L.
    set_solver. }
  destruct (reference_image a) as [ref |].
  - destruct Href as (ref_image & w2 & _ & ->).
    rewrite dom_insert_L, Hdom. reflexivity.
  - subst inputs. exact Hdom.
Qed.

Lemma get_prompt_for_edit_type_not_empty (edit_type : string) :
  get_prompt_for_edit_type edit_type <> EmptyString.
Proof.
  unfold get_prompt_for_edit_type, dict_get.
  destruct (prompts !! edit_type) as [v |] eqn:Hlookup; [| discriminate].
  unfold prompts in Hlookup.
  repeat (apply lookup_insert_Some in Hlookup;
          destruct Hlookup as [[_ <-] | [_ Hlookup]]; [discriminate |]).
  rewrite lookup_empty in Hlookup. discriminate Hlookup.
Qed.

(** X9: no edit type has an empty default prompt, so the prompt the
    pipeline receives is never the empty string, whatever the prompt
    field and the edit type were. *)
Theorem prompt_never_empty (a : Args) (s : State) :
  (forall edit_type, get_prompt_for_edit_type edit_type <> EmptyString) /\
  Forall (fun inputs : Inputs =>
            exists p, inputs !! "prompt" = Some (VStr p) /\ p <> EmptyString)
         (calls_of (trace (edit_image a s))).
Proof.
  split; [exact get_prompt_for_edit_type_not_empty |].
  eapply Forall_impl; [apply edit_image_calls |].
  intros inputs Hpassed.
  destruct (passed_fields a s inputs Hpassed) as (Hprompt & _).
  eexists. split; [exact Hprompt |].
  unfold str_or. destruct (prompt a); [| discriminate].
  apply get_prompt_for_edit_type_not_empty.
Qed.

(** X10: the negative prompt, the step count and the guidance scale
    reach the pipeline exactly as the handler received them; the
    handler neither validates nor adjusts them. *)
Theorem parameters_passed_unchanged (a : Args) (s : State) :
  Forall (fun inputs : Inputs =>
            inputs !! "negative_prompt" = Some (VStr (negative_prompt a)) /\
            inputs !! "num_inference_steps" = Some (VInt (num_inference_steps a)) /\
            inputs !! "true_cfg_scale" = Some (VFloat (true_cfg_scale a)))
         (calls_of (trace (edit_image a s))).
Proof.
  eapply Forall_impl; [apply edit_image_calls |].
  intros inputs Hpassed.
  destruct (passed_fields a s inputs Hpassed) as (_ & Hnp & Hn & Hc). auto.
Qed.

(** ** What the handler prints *)

Lemma printed_of_app (t1 t2 : list Event) :
  printed_of (t1 ++ t2) = (printed_of t1 ++ printed_of t2)%list.
Proof.
  induction t1 as [| ev t1 IH]; [reflexivity |].
  destruct ev; simpl; rewrite IH; reflexivity.
Qed.

Lemma edit_image_try_silent (a : Args) (s : State) :
  printed_of (trace (edit_image_try a s)) = [].
Proof.
  change (wp (edit_image_try a) s (fun _ _ t => printed_of t = [])).
  unfold edit_image_try, call_model.
  repeat (wp_step; cbn [globals world]); reflexivity.
Qed.

(** X11: the handler prints one line, "Error during image editing: "
    followed by the detail of the error it raises, exactly when the
    [try] block failed; it prints nothing when it returns a response
    and nothing when it rejects the call because the model is
    unloaded. *)
Theorem edit_image_printed (a : Args) (s : State) :
  printed_of (trace (edit_image a s)) =
    match outcome (edit_image a s), model (globals s) with
    | inl e, Some _ => ["Error during image editing: " ++ detail e]
    | _, _ => []
    end.
Proof.
  destruct (model (globals s)) as [m |] eqn:Hmodel.
  - rewrite (edit_image_loaded a s m Hmodel).
    pose proof (edit_image_try_silent a s) as Hsilent.
    destruct (edit_image_try a s) as [[[exc | response] s1] t1];
      unfold outcome, trace in *; cbn [fst snd detail] in *.
    + rewrite printed_of_app, Hsilent. reflexivity.
    + exact Hsilent.
  - rewrite (edit_image_unloaded a s Hmodel). reflexivity.
Qed.

(** ** The pipeline object across calls *)

Lemma pipes_of_app (t1 t2 : list Event) :
  pipes_of (t1 ++ t2) = (pipes_of t1 ++ pipes_of t2)%list.
Proof.
  induction t1 as [| ev t1 IH]; [reflexivity |].
  destruct ev; simpl; rewrite IH; reflexivity.
Qed.

Lemma edit_image_pipes (a : Args) (s : State) :
  Forall (fun pipe => model (globals s) = Some pipe)
         (pipes_of (trace (edit_image a s))).
Proof.
  change (wp (edit_image a) s
            (fun _ _ t => Forall (fun pipe => model (globals s) = Some pipe)
                                 (pipes_of t))).
  unfold edit_image, edit_image_try, call_model.
  repeat (wp_step; cbn [globals world]);
    cbn [app pipes_of]; repeat constructor; congruence.
Qed.

(** X12: once a pipeline is installed in the global [model], every
    pipeline invocation of every later call of the handler is made on
    that same object. *)
Theorem serve_same_pipeline (calls : list Args) (s : State) (m : Pipeline) :
  model (globals s) = Some m ->
  Forall (eq m) (pipes_of (trace (serve calls s))).
Proof.
  revert s. induction calls as [| a rest IH]; intros s Hmodel; [constructor 1 |].
  cbn [serve].
  pose proof (edit_image_globals a s) as Hg.
  pose proof (edit_image_pipes a s) as Ha.
  destruct (edit_image a s) as [[r s1] t1].
  unfold final, trace in *; cbn [fst snd] in *.
  assert (Hmodel1 : model (globals s1) = Some m) by (rewrite Hg; exact Hmodel).
  pose proof (IH s1 Hmodel1) as Hrest.
  destruct (serve rest s1) as [[rs s2] t2]. cbn [snd] in *.
  rewrite pipes_of_app. apply Forall_app. split; [| exact Hrest].
  eapply Forall_impl; [exact Ha |].
  intros pipe Hpipe. congruence.
Qed.

(** ** Startup *)

Lemma load_model_try_model (s : State) :
  wp load_model_try s
     (fun r s1 _ =>
        match r with
        | inl _ => None
        | inr _ => model (globals s1)
        end =
        match from_pretrained "Qwen/Qwen-Image-Edit"
                (if String.eqb (device (globals s)) "cuda" then bfloat16 else float32)
                (world s) with
        | (inl _, _) => None
        | (inr m, w1) =>
            match to m (device (globals s)) w1 with
            | (inl _, _) => None
            | (inr m', w2) =>
                match enable_model_cpu_offload m' w2 with
                | (inl _, _) => None
                | (inr _, _) => Some m'
                end
            end
        end).
Proof.
  unfold load_model_try.
  repeat (wp_step; cbn [globals world model device]);
    repeat match goal with
           | H : ?t = _ |- context [?t] => rewrite H
           end;
    reflexivity.
Qed.

Lemma load_model_try_trace (s : State) :
  wp load_model_try s
     (fun r _ t =>
        t = Pretrained "Qwen/Qwen-Image-Edit"
              (if String.eqb (device (globals s)) "cuda" then bfloat16 else float32)
            :: match r with
               | inr _ => [Printed "Qwen Image Edit model loaded successfully!"]
               | inl _ => []
               end).
Proof.
  unfold load_model_try.
  repeat (wp_step; cbn [globals world model device]); reflexivity.
Qed.

Lemma load_model_try_device (s : State) :
  wp load_model_try s (fun _ s1 _ => device (globals s1) = device (globals s)).
Proof.
  unfold load_model_try.
  repeat (wp_step; cbn [globals world model device]); reflexivity.
Qed.

(** X13: after startup the global [model] holds the pipeline that
    [.to(device)] returned, provided [from_pretrained], [.to(device)]
    and [enable_model_cpu_offload] all succeeded, in that order; if any
    of the three raised it is [None].  The weights are requested as
    bfloat16 when CUDA is available and as float32 otherwise. *)
Theorem startup_model (w : World) :
  model (globals (fst (startup w))) =
    match from_pretrained "Qwen/Qwen-Image-Edit"
            (if cuda_is_available w then bfloat16 else float32) w with
    | (inl _, _) => None
    | (inr m, w1) =>
        match to m (select_device w) w1 with
        | (inl _, _) => None
        | (inr m', w2) =>
            match enable_model_cpu_offload m' w2 with
            | (inl _, _) => None
            | (inr _, _) => Some m'
            end
        end
    end.
Proof.
  rewrite startup_run. cbn [fst].
  rewrite load_model_run.
  pose proof (load_model_try_model (fst (module_init w))) as Hmodel.
  unfold wp in Hmodel.
  cbn [module_init fst globals world device] in Hmodel.
  rewrite select_device_dtype in Hmodel. rewrite <- Hmodel.
  cbn [module_init fst].
  destruct (load_model_try _) as [[[exc | u] s1] t1]; reflexivity.
Qed.

Lemma load_model_try_status (s : State) :
  wp load_model_try s
     (fun r _ _ =>
        match r with
        | inl exc => "Error loading model: " ++ str exc
        | inr _ => "Qwen Image Edit model loaded successfully!"
        end =
        match from_pretrained "Qwen/Qwen-Image-Edit"
                (if String.eqb (device (globals s)) "cuda" then bfloat16 else float32)
                (world s) with
        | (inl exc, _) => "Error loading model: " ++ str exc
        | (inr m, w1) =>
            match to m (device (globals s)) w1 with
            | (inl exc, _) => "Error loading model: " ++ str exc
            | (inr m', w2) =>
                match enable_model_cpu_offload m' w2 with
                | (inl exc, _) => "Error loading model: " ++ str exc
                | (inr _, _) => "Qwen Image Edit model loaded successfully!"
                end
            end
        end).
Proof.
  unfold load_model_try.
  repeat (wp_step; cbn [globals world model device]);
    repeat match goal with
           | H : ?t = _ |- context [?t] => rewrite H
           end;
    reflexivity.
Qed.

(** X14: startup prints the device line, requests the pretrained
    weights once, and then prints exactly one status line: the success
    line when [from_pretrained], [.to(device)] and
    [enable_model_cpu_offload] all succeeded, and otherwise "Error
    loading model: " followed by the message of the exception raised by
    the first of the three that failed.  The success line is printed
    exactly when the model was installed. *)
Theorem startup_log (w : World) :
  let status :=
    match from_pretrained "Qwen/Qwen-Image-Edit"
            (if cuda_is_available w then bfloat16 else float32) w with
    | (inl exc, _) => "Error loading model: " ++ str exc
    | (inr m, w1) =>
        match to m (select_device w) w1 with
        | (inl exc, _) => "Error loading model: " ++ str exc
        | (inr m', w2) =>
            match enable_model_cpu_offload m' w2 with
            | (inl exc, _) => "Error loading model: " ++ str exc
            | (inr _, _) => "Qwen Image Edit model loaded successfully!"
            end
        end
    end in
  snd (startup w) =
    [Printed ("Using device: " ++ select_device w);
     Pretrained "Qwen/Qwen-Image-Edit"
       (if cuda_is_available w then bfloat16 else float32);
     Printed status] /\
  (is_Some (model (globals (fst (startup w)))) <->
   status = "Qwen Image Edit model loaded successfully!").
Proof.
  intros status. subst status.
  rewrite startup_run. cbn [fst snd].
  set (s0 := fst (module_init w)).
  rewrite (load_model_run s0).
  pose proof (load_model_try_trace s0) as Htrace.
  pose proof (load_model_try_returns s0) as Hret.
  pose proof (load_model_try_status s0) as Hstatus.
  unfold wp in Htrace, Hret, Hstatus.
  destruct (load_model_try s0) as [[[exc | u] s1] t1];
    unfold outcome, final, trace in *; cbn [fst snd globals model] in *;
    subst s0; cbn [module_init fst snd globals world device] in *;
    rewrite select_device_dtype in Htrace, Hstatus;
    rewrite <- Hstatus; subst t1.
  - split; [reflexivity |]. split.
    + intros [m Hm]. discriminate Hm.
    + intros Heq. discriminate Heq.
  - split; [reflexivity |]. split; [reflexivity |].
    intros _. destruct Hret as (m & ->). eauto.
Qed.

Lemma startup_device (w : World) :
  device (globals (fst (startup w))) = select_device w.
Proof.
  rewrite startup_run. cbn [fst].
  rewrite load_model_run.
  pose proof (load_model_try_device (fst (module_init w))) as Hdevice.
  unfold wp in Hdevice. cbn [module_init fst globals device] in Hdevice.
  cbn [module_init fst].
  destruct (load_model_try _) as [[[exc | u] s1] t1];
    unfold final in *; cbn [fst snd globals device] in *; exact Hdevice.
Qed.

(** X15: the device is chosen once, when the module is imported: it is
    "cuda" or "cpu", neither startup nor any sequence of handler calls
    changes it, and every generator handed to the pipeline in the
    process is created on it. *)
Theorem process_device (w : World) (calls : list Args) :
  (select_device w = "cuda" \/ select_device w = "cpu") /\
  device (globals (fst (startup w))) = select_device w /\
  device (globals (final (serve calls (fst (startup w))))) = select_device w /\
  Forall (fun inputs : Inputs =>
            exists g, inputs !! "generator" = Some (VGenerator g) /\
                      gen_device g = select_device w)
         (calls_of (trace (serve calls (fst (startup w))))).
Proof.
  split; [| split; [| split]].
  - unfold select_device. destruct (cuda_is_available w); auto.
  - apply startup_device.
  - rewrite serve_keeps_globals. apply startup_device.
  - eapply Forall_impl; [apply serve_calls |].
    intros inputs (a & s1 & Hs1 & Hp).
    destruct (passed_lookup a s1 inputs "generator" Hp) as (im & ->);
      [discriminate |].
    unfold literal. rewrite lookup_insert_eq. eexists. split; [reflexivity |].
    cbn [manual_seed torch_Generator gen_device].
    rewrite Hs1. apply startup_device.
Qed.

End Further.

(** * The further properties at work on the concrete instances *)

Lemma edit_image_bad_upload_witness :
  undecodable (L := Demo.libs) (image Demo.blank) true
    {| str := "cannot identify image file" |} true /\
  edit_image Demo.blank Demo.loaded =
    (inl {| status_code := 500; detail := "cannot identify image file" |},
     Demo.loaded,
     [Printed "Error during image editing: cannot identify image file"]).
Proof.
  assert (Hbad : undecodable (L := Demo.libs) (image Demo.blank) true
                   {| str := "cannot identify image file" |} true).
  { right. left. exists [], true. split; reflexivity. }
  split; [exact Hbad |].
  exact (edit_image_bad_upload (L := Demo.libs) Demo.blank Demo.loaded tt
           {| str := "cannot identify image file" |} true eq_refl Hbad).
Defined.

Lemma edit_image_bad_reference_witness :
  edit_image Demo.blank_reference Demo.loaded =
    (inl {| status_code := 500; detail := "cannot identify image file" |},
     Demo.loaded,
     [Printed "Error during image editing: cannot identify image file"]).
Proof.
  apply (edit_image_bad_reference (L := Demo.libs) Demo.blank_reference
           Demo.loaded tt (Demo.rgb Demo.png) true []
           {| str := "cannot identify image file" |} true).
  - reflexivity.
  - exists Demo.png, {| Demo.pic_mode := "RGBA"; Demo.pic_data := Demo.png |}, true, true.
    repeat split.
  - reflexivity.
  - right. left. exists [], true. split; reflexivity.
Defined.

Lemma edit_image_succeeds_witness :
  edit_image Demo.plain Demo.loaded =
    (inr {| content := Demo.png;
            media_type := "image/png";
            headers := {[ "Content-Disposition" :=
                          "attachment; filename=edited_image.png" ]} |},
     Demo.loaded,
     [Called (L := Demo.libs) tt
        (literal (L := Demo.libs) Demo.plain "cpu" (Demo.rgb Demo.png))]).
Proof.
  apply (edit_image_succeeds (L := Demo.libs) Demo.plain Demo.loaded tt
           (literal (L := Demo.libs) Demo.plain "cpu" (Demo.rgb Demo.png))
           true true true (Demo.rgb Demo.png) [] Demo.png).
  - reflexivity.
  - exists (Demo.rgb Demo.png), true. split.
    + exists Demo.png, {| Demo.pic_mode := "RGBA"; Demo.pic_data := Demo.png |}, true, true.
      repeat split.
    + split; reflexivity.
  - reflexivity.
  - reflexivity.
Defined.

Lemma edit_image_empty_output_witness :
  edit_image (Demo.plain_in Demo.hollow Demo.png) (Demo.loaded_in Demo.hollow tt true) =
    (inl {| status_code := 500; detail := "list index out of range" |},
     Demo.loaded_in Demo.hollow tt true,
     [Called (L := Demo.hollow) tt
        (literal (L := Demo.hollow) (Demo.plain_in Demo.hollow Demo.png) "cpu"
                 (Demo.rgb Demo.png));
      Printed "Error during image editing: list index out of range"]).
Proof.
  apply (edit_image_empty_output (L := Demo.hollow)
           (Demo.plain_in Demo.hollow Demo.png) (Demo.loaded_in Demo.hollow tt true) tt
           (literal (L := Demo.hollow) (Demo.plain_in Demo.hollow Demo.png) "cpu"
                    (Demo.rgb Demo.png))
           true true).
  - reflexivity.
  - exists (Demo.rgb Demo.png), true. split.
    + exists Demo.png, {| Demo.pic_mode := "RGBA"; Demo.pic_data := Demo.png |}, true, true.
      repeat split.
    + split; reflexivity.
  - reflexivity.
Defined.

Lemma edit_image_pipeline_error_witness :
  edit_image (Demo.plain_in Demo.exhausted Demo.png)
             (Demo.loaded_in Demo.exhausted tt true) =
    (inl {| status_code := 500; detail := "CUDA out of memory" |},
     Demo.loaded_in Demo.exhausted tt true,
     [Called (L := Demo.exhausted) tt
        (literal (L := Demo.exhausted) (Demo.plain_in Demo.exhausted Demo.png) "cpu"
                 (Demo.rgb Demo.png));
      Printed "Error during image editing: CUDA out of memory"]).
Proof.
  apply (edit_image_pipeline_error (L := Demo.exhausted)
           (Demo.plain_in Demo.exhausted Demo.png)
           (Demo.loaded_in Demo.exhausted tt true) tt
           (literal (L := Demo.exhausted) (Demo.plain_in Demo.exhausted Demo.png) "cpu"
                    (Demo.rgb Demo.png))
           true true {| str := "CUDA out of memory" |}).
  - reflexivity.
  - exists (Demo.rgb Demo.png), true. split.
    + exists Demo.png, {| Demo.pic_mode := "RGBA"; Demo.pic_data := Demo.png |}, true, true.
      repeat split.
    + split; reflexivity.
  - reflexivity.
Defined.

Lemma edit_image_save_error_witness :
  edit_image (Demo.plain_in Demo.unwritable Demo.png)
             (Demo.loaded_in Demo.unwritable tt true) =
    (inl {| status_code := 500; detail := "encoder error" |},
     Demo.loaded_in Demo.unwritable tt true,
     [Called (L := Demo.unwritable) tt
        (literal (L := Demo.unwritable) (Demo.plain_in Demo.unwritable Demo.png) "cpu"
                 (Demo.rgb Demo.png));
      Printed "Error during image editing: encoder error"]).
Proof.
  apply (edit_image_save_error (L := Demo.unwritable)
           (Demo.plain_in Demo.unwritable Demo.png)
           (Demo.loaded_in Demo.unwritable tt true) tt
           (literal (L := Demo.unwritable) (Demo.plain_in Demo.unwritable Demo.png) "cpu"
                    (Demo.rgb Demo.png))
           true true true (Demo.rgb Demo.png) [] {| str := "encoder error" |}).
  - reflexivity.
  - exists (Demo.rgb Demo.png), true. split.
    + exists Demo.png, {| Demo.pic_mode := "RGBA"; Demo.pic_data := Demo.png |}, true, true.
      repeat split.
    + split; reflexivity.
  - reflexivity.
  - reflexivity.
Defined.

Lemma serve_same_pipeline_witness :
  pipes_of (trace (serve [Demo.plain; Demo.blank; Demo.custom] Demo.loaded)) = [tt; tt] /\
  Forall (eq tt)
         (pipes_of (trace (serve [Demo.plain; Demo.blank; Demo.custom] Demo.loaded))).
Proof.
  split; [reflexivity |].
  exact (serve_same_pipeline (L := Demo.libs)
           [Demo.plain; Demo.blank; Demo.custom] Demo.loaded tt eq_refl).
Defined.

